(** * The Azure AI Search / LangChain sample notebook

    A shallow embedding of the code cells of
    [demo-python/code/community-integration/langchain/azure-search-vector-python-langchain-sample.ipynb].

    The notebook is a straight-line script over library objects.  Pure code
    (reading [os.environ], building keyword arguments, slicing lists) is
    embedded as functions into a result type; every call into a library
    object that may reach the local disk or a remote service is an
    operation of a small free monad, answered by a world that may return a
    value or raise.  A run records the operations performed, with their
    answers, in the order the interpreter performs them.

    Cells run in notebook order and an exception that is not caught stops
    the run.  The markdown cells and the shell cell that installs the
    packages (line 42) are not part of the program.  What the library
    objects do with the arguments they are given (LangChain's text
    splitter, PDF loader, embeddings and search classes, the Azure SDK) is
    not code of the notebook: it is the world's side of a call. *)

From Stdlib Require Import ZArith.
From Stdlib Require Import Floats.SpecFloat.
From stdpp Require Import base option list strings gmap.

Set Warnings "-register-all,-clear-no-such-hyp".
Set Default Proof Using "Type".

Open Scope string_scope.
Open Scope list_scope.

(** ** Python values and exceptions *)

(** Values found in a document's metadata (decoded JSON). *)
Inductive PyVal :=
| VNone
| VBool (b : bool)
| VInt (z : Z)
| VFloat (f : spec_float)
| VStr (s : string)
| VList (l : list PyVal)
| VDict (d : gmap string PyVal).

(** Python's truth value testing ([if answers:], [x or y], [not x]). *)
Definition truthy (v : PyVal) : bool :=
  match v with
  | VNone => false
  | VBool b => b
  | VInt z => negb (z =? 0)%Z
  | VFloat f => match f with S754_zero _ => false | _ => true end
  | VStr s => negb (String.eqb s "")
  | VList l => match l with [] => false | _ => true end
  | VDict d => negb (bool_decide (d = ∅))
  end.

(** Truth value of an [Optional[str]] variable. *)
Definition truthy_opt (o : option string) : bool :=
  match o with
  | None => false
  | Some s => negb (String.eqb s "")
  end.

Inductive PyError :=
| KeyError (key : string)
| AttributeError (attr : string)
| TypeError
| LibraryError (msg : string).

(** The outcome of evaluating Python code: a value or a raised exception. *)
Inductive Result (A : Type) :=
| Ok (a : A)
| Err (e : PyError).
Arguments Ok {A} a.
Arguments Err {A} e.

#[global] Instance Result_ret : MRet Result := @Ok.
#[global] Instance Result_bind : MBind Result := λ A B f r,
  match r with
  | Ok a => f a
  | Err e => Err e
  end.

(** ** The process environment *)

(** [load_dotenv(override=True)]: every variable the [.env] file defines is
    written to [os.environ], replacing the value the process had. *)
Definition load_dotenv (override : bool) (dotenv env : gmap string string)
  : gmap string string :=
  if override then dotenv ∪ env else env ∪ dotenv.

(** [os.environ[key]] *)
Definition os_environ_get (environ : gmap string string) (key : string)
  : Result string :=
  match environ !! key with
  | Some v => Ok v
  | None => Err (KeyError key)
  end.

(** ** Credentials *)

(** The object [DefaultAzureCredential()] constructs (lines 75 and 94).  It
    is kept as a value: what the constructor itself reads, and whether it
    raises, is the library's and not part of the model. *)
Inductive DefaultAzureCredential := DefaultAzureCredential_new.

(** The object returned by [get_bearer_token_provider(credential, scope)]. *)
Record TokenProvider := get_bearer_token_provider {
  provider_credential : DefaultAzureCredential;
  provider_scope : string
}.

(** The value of [key_credential or DefaultAzureCredential()]: the key
    string, or the ambient identity credential. *)
Inductive SearchCredential :=
| KeyString (key : string)
| AmbientIdentity (c : DefaultAzureCredential).

(** ** Cell "Load .env file" (lines 60-75) *)

Record Config := {
  endpoint : string;
  key_credential : option string;
  index_name : string;
  azure_openai_endpoint : string;
  azure_openai_key : option string;
  azure_openai_embedding_deployment : string;
  azure_openai_api_version : string;
  credential : SearchCredential
}.

(** [os.environ[key] if len(os.environ[key]) > 0 else None] *)
Definition environ_key_or_None (environ : gmap string string) (key : string)
  : Result (option string) :=
  v ← os_environ_get environ key;
  if (0 <? String.length v)%nat
  then v' ← os_environ_get environ key; mret (Some v')
  else mret None.

(** [x or DefaultAzureCredential()] *)
Definition or_DefaultAzureCredential (x : option string) : SearchCredential :=
  match x with
  | Some s => if truthy_opt x then KeyString s
              else AmbientIdentity DefaultAzureCredential_new
  | None => AmbientIdentity DefaultAzureCredential_new
  end.

(** Lines 67-75, on the environment left by [load_dotenv]. *)
Definition load_config (environ : gmap string string) : Result Config :=
  endpoint ← os_environ_get environ "AZURE_SEARCH_SERVICE_ENDPOINT";
  key_credential ← environ_key_or_None environ "AZURE_SEARCH_ADMIN_KEY";
  index_name ← os_environ_get environ "AZURE_SEARCH_INDEX";
  azure_openai_endpoint ← os_environ_get environ "AZURE_OPENAI_ENDPOINT";
  azure_openai_key ← environ_key_or_None environ "AZURE_OPENAI_KEY";
  azure_openai_embedding_deployment ←
    os_environ_get environ "AZURE_OPENAI_EMBEDDING_DEPLOYMENT";
  azure_openai_api_version ← os_environ_get environ "AZURE_OPENAI_API_VERSION";
  let credential := or_DefaultAzureCredential key_credential in
  mret {| endpoint := endpoint;
          key_credential := key_credential;
          index_name := index_name;
          azure_openai_endpoint := azure_openai_endpoint;
          azure_openai_key := azure_openai_key;
          azure_openai_embedding_deployment := azure_openai_embedding_deployment;
          azure_openai_api_version := azure_openai_api_version;
          credential := credential |}.

(** The whole cell: [.env] file contents [dotenv], process environment [env]. *)
Definition cell_load_env (dotenv env : gmap string string) : Result Config :=
  load_config (load_dotenv true dotenv env).

(** The variables the cell reads, in reading order, and those among them
    that are used as read (the two keys are turned into [None] when empty). *)
Definition config_variables : list string :=
  [ "AZURE_SEARCH_SERVICE_ENDPOINT"; "AZURE_SEARCH_ADMIN_KEY";
    "AZURE_SEARCH_INDEX"; "AZURE_OPENAI_ENDPOINT"; "AZURE_OPENAI_KEY";
    "AZURE_OPENAI_EMBEDDING_DEPLOYMENT"; "AZURE_OPENAI_API_VERSION" ].

Definition required_variables : list string :=
  [ "AZURE_SEARCH_SERVICE_ENDPOINT"; "AZURE_SEARCH_INDEX";
    "AZURE_OPENAI_ENDPOINT"; "AZURE_OPENAI_EMBEDDING_DEPLOYMENT";
    "AZURE_OPENAI_API_VERSION" ].

(** ** Library objects *)

(** [AzureOpenAIEmbeddings(...)], by its keyword arguments. *)
Record AzureOpenAIEmbeddings := {
  azure_deployment : string;
  openai_api_version : string;
  azure_endpoint : string;
  api_key : option string;
  azure_ad_token_provider : option TokenProvider
}.

(** [AzureSearch(...)], by its keyword arguments; [embedding_function] is
    the bound method [embed_query] of the embeddings object it names. *)
Module AzureSearch.
Record t := new {
  azure_search_endpoint : string;
  azure_search_key : option string;
  index_name : string;
  embedding_function : AzureOpenAIEmbeddings;
  semantic_configuration_name : string
}.
End AzureSearch.

Record RecursiveCharacterTextSplitter := {
  chunk_size : nat;
  chunk_overlap : nat
}.

(** [PyPDFLoader(file_path)]; a path is kept as the components given to
    [os.path.join]. *)
Record PyPDFLoader := { file_path : list string }.

Record Document := {
  page_content : string;
  metadata : gmap string PyVal
}.

(** What one [print] call writes: literal text and formatted values. *)
Inductive Piece :=
| Lit (s : string)
| Fmt (v : PyVal).

(** ** Library calls and notebook programs *)

(** The calls the notebook makes into library objects, indexed by the type
    of what they return. *)
Inductive Call : Type → Type :=
| AzureOpenAIEmbeddings_init (self : AzureOpenAIEmbeddings) : Call unit
| AzureSearch_init (self : AzureSearch.t) : Call unit
| PyPDFLoader_init (self : PyPDFLoader) : Call unit
| load_and_split (self : PyPDFLoader) (text_splitter : RecursiveCharacterTextSplitter)
    : Call (list Document)
| add_documents (self : AzureSearch.t) (documents : list Document)
    : Call (list string)
| similarity_search (self : AzureSearch.t) (query : string) (k : nat)
    (search_type : string) : Call (list Document)
| semantic_hybrid_search_with_score (self : AzureSearch.t) (query : string) (k : nat)
    : Call (list (Document * spec_float))
| print (line : list Piece) : Call unit.

(** A notebook program: it returns, raises, or performs a call and goes on
    with the value returned.  There is no handler: the notebook has no
    [try] statement. *)
Inductive Notebook (A : Type) : Type :=
| Return (a : A)
| Raise (e : PyError)
| Perform {R : Type} (c : Call R) (k : R → Notebook A).
Arguments Return {A} a.
Arguments Raise {A} e.
Arguments Perform {A R} c k.

Fixpoint Notebook_then {A B} (f : A → Notebook B) (p : Notebook A) : Notebook B :=
  match p with
  | Return a => f a
  | Raise e => Raise e
  | Perform c k => Perform c (λ r, Notebook_then f (k r))
  end.

#[global] Instance Notebook_ret : MRet Notebook := @Return.
#[global] Instance Notebook_bind : MBind Notebook := @Notebook_then.

Definition call {R} (c : Call R) : Notebook R := Perform c Return.

(** Pure code inside a cell. *)
Definition lift {A} (r : Result A) : Notebook A :=
  match r with
  | Ok a => Return a
  | Err e => Raise e
  end.

(** [for x in l: body], threading the variables the body assigns. *)
Fixpoint for_in {A S} (l : list A) (body : A → S → Notebook S) (s : S)
  : Notebook S :=
  match l with
  | [] => mret s
  | x :: l' => s' ← body x s; for_in l' body s'
  end.

(** ** Runs *)

(** A performed call with its answer. *)
Inductive Event :=
| Ev {R : Type} (c : Call R) (r : Result R).

(** The world outside the notebook: given what happened so far, it answers
    a call with a value or an exception. *)
Definition World := list Event → ∀ R, Call R → Result R.

(** [run w h p]: the events of the run of [p] after history [h], appended
    to [h], and the outcome.  A call that raises ends the run. *)
Fixpoint run {A} (w : World) (h : list Event) (p : Notebook A)
  : list Event * Result A :=
  match p with
  | Return a => (h, Ok a)
  | Raise e => (h, Err e)
  | Perform c k =>
      match w h _ c with
      | Ok r => run w (h ++ [Ev c (Ok r)]) (k r)
      | Err e => (h ++ [Ev c (Err e)], Err e)
      end
  end.

(** ** Cell "Create LangChain Azure OpenAI Embeddings" (lines 91-104) *)

Definition openai_credential : DefaultAzureCredential :=
  DefaultAzureCredential_new.

Definition token_provider : TokenProvider :=
  get_bearer_token_provider openai_credential
    "https://cognitiveservices.azure.com/.default".

(** The keyword arguments of [AzureOpenAIEmbeddings(...)]. *)
Definition embeddings_args (cfg : Config) : AzureOpenAIEmbeddings :=
  {| azure_deployment := azure_openai_embedding_deployment cfg;
     openai_api_version := azure_openai_api_version cfg;
     azure_endpoint := azure_openai_endpoint cfg;
     api_key := azure_openai_key cfg;
     azure_ad_token_provider :=
       if negb (truthy_opt (azure_openai_key cfg))
       then Some token_provider else None |}.

Definition cell_embeddings (cfg : Config) : Notebook AzureOpenAIEmbeddings :=
  let embeddings := embeddings_args cfg in
  call (AzureOpenAIEmbeddings_init embeddings);;
  mret embeddings.

(** ** Cell "Create LangChain Vector Store" (lines 120-128) *)

(** The keyword arguments of [AzureSearch(...)]. *)
Definition vector_store_args (cfg : Config) (embeddings : AzureOpenAIEmbeddings)
  : AzureSearch.t :=
  {| AzureSearch.azure_search_endpoint := endpoint cfg;
     AzureSearch.azure_search_key := key_credential cfg;
     AzureSearch.index_name := index_name cfg;
     AzureSearch.embedding_function := embeddings;
     AzureSearch.semantic_configuration_name := "default" |}.

Definition cell_vector_store (cfg : Config) (embeddings : AzureOpenAIEmbeddings)
  : Notebook AzureSearch.t :=
  let vector_store := vector_store_args cfg embeddings in
  call (AzureSearch_init vector_store);;
  mret vector_store.

(** ** Ingestion cell (lines 148-163) *)

(** A path is kept as the components given to [os.path.join]. *)
Definition os_path_join (a : list string) (p : list string) : list string :=
  a ++ p.

Definition directory : list string :=
  os_path_join [".."] [".."; ".."; ".."; "data"; "benefitdocs"].

Definition files : list string :=
  [ "Benefit_Options.pdf";
    "Northwind_Health_Plus_Benefits_Details.pdf";
    "Northwind_Standard_Benefits_Details.pdf" ].

Definition splitter : RecursiveCharacterTextSplitter :=
  {| chunk_size := 1000; chunk_overlap := 0 |}.

(** [PyPDFLoader(os.path.join(directory, file))] *)
Definition pdf_loader (file : string) : PyPDFLoader :=
  {| file_path := os_path_join directory [file] |}.

(** The body of [for file in files:], on the variable [total_chunks]. *)
Definition ingest_file (vector_store : AzureSearch.t) (file : string)
    (total_chunks : nat) : Notebook nat :=
  let loader := pdf_loader file in
  call (PyPDFLoader_init loader);;
  file_chunks ← call (load_and_split loader splitter);
  results ← call (add_documents vector_store file_chunks);
  let total_chunks := total_chunks + length results in
  call (print [Lit "Indexed "; Fmt (VStr file)]);;
  mret total_chunks.

Definition cell_ingest (vector_store : AzureSearch.t) : Notebook nat :=
  let total_chunks := 0 in
  total_chunks ← for_in files (ingest_file vector_store) total_chunks;
  call (print [Lit "Indexed "; Fmt (VInt (Z.of_nat total_chunks)); Lit " chunks"]);;
  mret total_chunks.

(** ** Query cells (lines 224-234, 308-318, 389-414) *)

Definition query_text : string :=
  "What is included in my Northwind Health Plus plan that is not in standard?".

(** [s * n] on strings. *)
Fixpoint str_mul (s : string) (n : nat) : string :=
  match n with
  | 0 => ""
  | S n' => s +:+ str_mul s n'
  end.

(** [d[key]] *)
Definition subscript (v : PyVal) (key : string) : Result PyVal :=
  match v with
  | VDict d =>
      match d !! key with
      | Some x => Ok x
      | None => Err (KeyError key)
      end
  | _ => Err TypeError
  end.

(** [d.get(key)] *)
Definition dict_get (v : PyVal) (key : string) : Result PyVal :=
  match v with
  | VDict d => Ok (default VNone (d !! key))
  | _ => Err (AttributeError "get")
  end.

(** The body of [for doc in docs:] in the two [similarity_search] cells. *)
Definition print_doc (doc : Document) (_ : unit) : Notebook unit :=
  call (print [Lit (str_mul "-" 80)]);;
  source ← lift (subscript (VDict (metadata doc)) "source");
  call (print [Lit "Source: "; Fmt source]);;
  call (print [Lit "Chunk Content: "; Fmt (VStr (page_content doc))]).

(** Both cells call [vector_store.similarity_search(query, k=50,
    search_type=...)], keep [docs[:3]] and print what they kept. *)
Definition cell_similarity_search (vector_store : AzureSearch.t)
    (search_type : string) : Notebook (list Document) :=
  docs ← call (similarity_search vector_store query_text 50 search_type);
  let docs := take 3 docs in
  for_in docs print_doc ();;
  mret docs.

Definition cell_vector_search (vector_store : AzureSearch.t)
  : Notebook (list Document) :=
  cell_similarity_search vector_store "similarity".

Definition cell_hybrid_search (vector_store : AzureSearch.t)
  : Notebook (list Document) :=
  cell_similarity_search vector_store "hybrid".

(** [if v.get('highlights'): print(f"{label}{v['highlights']}")
     else: print(f"{label}{v['text']}")] *)
Definition print_highlights_or_text (label : string) (v : PyVal)
  : Notebook unit :=
  highlights ← lift (dict_get v "highlights");
  if truthy highlights
  then x ← lift (subscript v "highlights"); call (print [Lit label; Fmt x])
  else x ← lift (subscript v "text"); call (print [Lit label; Fmt x]).

(** The body of [for doc, score in docs_and_scores:]. *)
Definition print_doc_and_score (ds : Document * spec_float) (_ : unit)
  : Notebook unit :=
  let '(doc, score) := ds in
  call (print [Lit (str_mul "-" 80)]);;
  answers ← lift (subscript (VDict (metadata doc)) "answers");
  (if truthy answers
   then print_highlights_or_text "Semantic Answer: " answers;;
        call (print [Lit "Semantic Answer Score: "; Fmt (VFloat score)])
   else mret ());;
  call (print [Lit "Content:"; Lit " "; Fmt (VStr (page_content doc))]);;
  captions ← lift (subscript (VDict (metadata doc)) "captions");
  call (print [Lit "Score: "; Fmt (VFloat score)]);;
  if truthy captions
  then print_highlights_or_text "Caption: " captions
  else call (print [Lit "Caption not available"]).

Definition cell_semantic_hybrid_search (vector_store : AzureSearch.t)
  : Notebook (list (Document * spec_float)) :=
  docs_and_scores ←
    call (semantic_hybrid_search_with_score vector_store query_text 50);
  let docs_and_scores := take 3 docs_and_scores in
  for_in docs_and_scores print_doc_and_score ();;
  mret docs_and_scores.

(** ** The notebook, cell after cell *)

(** The cells that follow the configuration cell. *)
Definition cells_after_config (cfg : Config) : Notebook unit :=
  embeddings ← cell_embeddings cfg;
  vector_store ← cell_vector_store cfg embeddings;
  total_chunks ← cell_ingest vector_store;
  docs ← cell_vector_search vector_store;
  docs ← cell_hybrid_search vector_store;
  docs_and_scores ← cell_semantic_hybrid_search vector_store;
  mret ().

Definition notebook (dotenv env : gmap string string) : Notebook unit :=
  cfg ← lift (cell_load_env dotenv env);
  cells_after_config cfg.

(** * Vocabulary of the statements *)

(** ** Reading a run *)

(** The exception an event's call raised, if it raised. *)
Definition event_error (ev : Event) : option PyError :=
  match ev with
  | Ev _ (Ok _) => None
  | Ev _ (Err e) => Some e
  end.

(** [all_calls P p]: whatever the world answers, every call [p] makes
    satisfies [P]. *)
Fixpoint all_calls {A} (P : ∀ R, Call R → Prop) (p : Notebook A) : Prop :=
  match p with
  | Return _ | Raise _ => True
  | Perform c k => P _ c ∧ ∀ r, all_calls P (k r)
  end.

Definition event_call_satisfies (P : ∀ R, Call R → Prop) (ev : Event) : Prop :=
  match ev with
  | Ev c _ => P _ c
  end.

(** The search client a call is made on, and the embeddings object a call
    constructs. *)
Definition call_search_client {R} (c : Call R) : option AzureSearch.t :=
  match c with
  | AzureSearch_init self
  | add_documents self _
  | similarity_search self _ _ _
  | semantic_hybrid_search_with_score self _ _ => Some self
  | _ => None
  end.

Definition call_embeddings {R} (c : Call R) : option AzureOpenAIEmbeddings :=
  match c with
  | AzureOpenAIEmbeddings_init self => Some self
  | _ => None
  end.

Definition is_print_call (R : Type) (c : Call R) : Prop :=
  match c with
  | print _ => True
  | _ => False
  end.

Definition is_add_documents_call {R} (c : Call R) : bool :=
  match c with
  | add_documents _ _ => true
  | _ => false
  end.

Definition is_add_documents (ev : Event) : bool :=
  match ev with
  | Ev c _ => is_add_documents_call c
  end.

(** The events of one completed iteration of the ingestion loop, for the
    chunks [load_and_split] returned and the ids [add_documents] returned. *)
Definition file_events (vector_store : AzureSearch.t) (file : string)
    (answer : list Document * list string) : list Event :=
  let loader := pdf_loader file in
  [ Ev (PyPDFLoader_init loader) (Ok ());
    Ev (load_and_split loader splitter) (Ok answer.1);
    Ev (add_documents vector_store answer.1) (Ok answer.2);
    Ev (print [Lit "Indexed "; Fmt (VStr file)]) (Ok ()) ].

Definition ingest_events (vector_store : AzureSearch.t) (fs : list string)
    (answers : list (list Document * list string)) : list Event :=
  concat (zip_with (file_events vector_store) fs answers).

(** The number of ids each [add_documents] call returned. *)
Definition written_counts (answers : list (list Document * list string))
  : list nat :=
  (λ answer, length answer.2) <$> answers.

(** The number of ids an [add_documents] call returned. *)
Definition event_written (ev : Event) : option nat :=
  match ev with
  | Ev c r =>
      match c in Call R return Result R → option nat with
      | add_documents _ _ => λ r,
          match r with
          | Ok ids => Some (length ids)
          | Err _ => None
          end
      | _ => λ _, None
      end r
  end.

(** ** Statements about calls and cells *)

(** The statement of C3 as the specification words it: an absent or empty
    required variable makes the configuration cell fail. *)
Definition fails_on_absent_or_empty_required_variable : Prop :=
  ∀ environ k,
    k ∈ required_variables →
    environ !! k = None ∨ environ !! k = Some "" →
    ∃ e, load_config environ = Err e.

(** [cfg] with another value of the variable [credential]. *)
Definition with_credential (cfg : Config) (c : SearchCredential) : Config :=
  {| endpoint := endpoint cfg;
     key_credential := key_credential cfg;
     index_name := index_name cfg;
     azure_openai_endpoint := azure_openai_endpoint cfg;
     azure_openai_key := azure_openai_key cfg;
     azure_openai_embedding_deployment := azure_openai_embedding_deployment cfg;
     azure_openai_api_version := azure_openai_api_version cfg;
     credential := c |}.

(** What X18 says of a call: if it is made on a search client, that client
    was given no key. *)
Definition search_client_has_no_key (R : Type) (c : Call R) : Prop :=
  ∀ vector_store,
    call_search_client c = Some vector_store →
    AzureSearch.azure_search_key vector_store = None.



(** The statement of C4 as the specification words it, for the vector
    search cell: the documents the cell ends with are the sequence the
    service returned. *)
Definition returns_results_as_produced : Prop :=
  ∀ (w : World) h vector_store tr docs results,
    w h _ (similarity_search vector_store query_text 50 "similarity")
      = Ok results →
    run w h (cell_vector_search vector_store) = (tr, Ok docs) →
    docs = results.

(** What C4, as amended, says of a run of a query cell from history [h]
    with trace [tr] and outcome [res]: the first call is the search call
    [c], answered by the world at [h], and every other call is a [print];
    if the cell returned [kept], the search call returned and [kept] is the
    first three of its results. *)
Definition one_search_then_prints {A} (w : World) (h : list Event)
    (c : Call (list A)) (tr : list Event) (res : Result (list A)) : Prop :=
  ∃ prints,
    tr = h ++ Ev c (w h _ c) :: prints ∧
    Forall (event_call_satisfies is_print_call) prints ∧
    ∀ kept, res = Ok kept →
      ∃ results, w h _ c = Ok results ∧ kept = take 3 results.

(** [answer] is what the world [w] returned for [file]: its chunks to the
    [load_and_split] call, and its ids to the [add_documents] call made
    with these chunks. *)
Definition answered_by (w : World) (vector_store : AzureSearch.t)
    (file : string) (answer : list Document * list string) : Prop :=
  (∃ h, w h _ (load_and_split (pdf_loader file) splitter) = Ok answer.1) ∧
  (∃ h, w h _ (add_documents vector_store answer.1) = Ok answer.2).

(** Fixed inputs, for C5.  The files are the same in the two worlds:
    loading and splitting one of the three files gives the same outcome in
    both, whatever happened before. *)
Definition loads_alike (w w' : World) : Prop :=
  ∀ h h' file, file ∈ files →
    w h _ (load_and_split (pdf_loader file) splitter)
    = w' h' _ (load_and_split (pdf_loader file) splitter).

(** The index is the same in the two worlds: writing the same documents
    returns the same number of ids in both, whatever happened before. *)
Definition writes_alike (vector_store : AzureSearch.t) (w w' : World) : Prop :=
  ∀ h h' documents ids ids',
    w h _ (add_documents vector_store documents) = Ok ids →
    w' h' _ (add_documents vector_store documents) = Ok ids' →
    length ids = length ids'.

(** What X2 says of a call: a [load_and_split] call is made on the loader
    of one of the three files, with a splitter of window 1000 and overlap 0. *)
Definition splits_with_window_1000_overlap_0 (R : Type) (c : Call R) : Prop :=
  match c with
  | load_and_split loader text_splitter =>
      chunk_size text_splitter = 1000 ∧
      chunk_overlap text_splitter = 0 ∧
      ∃ file, file ∈ files ∧ loader = pdf_loader file
  | _ => True
  end.

(** ** Sample inputs *)

Definition sample_environ (admin_key openai_key : string) : gmap string string :=
  list_to_map
    [ ("AZURE_SEARCH_SERVICE_ENDPOINT", "https://example.search.windows.net");
      ("AZURE_SEARCH_ADMIN_KEY", admin_key);
      ("AZURE_SEARCH_INDEX", "langchain-index");
      ("AZURE_OPENAI_ENDPOINT", "https://example.openai.azure.com");
      ("AZURE_OPENAI_KEY", openai_key);
      ("AZURE_OPENAI_EMBEDDING_DEPLOYMENT", "text-embedding-ada-002");
      ("AZURE_OPENAI_API_VERSION", "2024-02-01") ].

Definition sample_document (text source : string) : Document :=
  {| page_content := text;
     metadata := {[ "source" := VStr source ]} |}.

Definition sample_caption (text : string) : PyVal :=
  VDict {[ "text" := VStr text; "highlights" := VStr "" ]}.

Definition sample_scored_document (text : string) (score : spec_float)
  : Document * spec_float :=
  ({| page_content := text;
      metadata := {[ "source" := VStr "Benefit_Options.pdf";
                     "answers" := VNone;
                     "captions" := sample_caption text ]} |},
   score).

(** A world in which every call returns: each file splits into two chunks,
    every chunk is written, and a search finds four documents. *)
Definition world_ok : World := λ h R c,
  match c in Call R return Result R with
  | AzureOpenAIEmbeddings_init _ => Ok ()
  | AzureSearch_init _ => Ok ()
  | PyPDFLoader_init _ => Ok ()
  | load_and_split loader _ =>
      Ok [ sample_document "first chunk" (default "" (last (file_path loader)));
           sample_document "second chunk" (default "" (last (file_path loader))) ]
  | add_documents _ documents => Ok ((λ _, "id") <$> documents)
  | similarity_search _ _ _ _ =>
      Ok [ sample_document "a" "Benefit_Options.pdf";
           sample_document "b" "Benefit_Options.pdf";
           sample_document "c" "Benefit_Options.pdf";
           sample_document "d" "Benefit_Options.pdf" ]
  | semantic_hybrid_search_with_score _ _ _ =>
      Ok [ sample_scored_document "a" (S754_finite false 4 0);
           sample_scored_document "b" (S754_finite false 3 0);
           sample_scored_document "c" (S754_finite false 2 0);
           sample_scored_document "d" (S754_finite false 1 0) ]
  | print _ => Ok ()
  end.

(** A world in which the index rejects the second file: the second
    [add_documents] call raises, every other call is answered as in
    [world_ok]. *)
Definition world_second_write_fails : World := λ h R c,
  if is_add_documents_call c
     && (length (List.filter is_add_documents h) =? 1)%nat
  then Err (LibraryError "HttpResponseError")
  else world_ok h R c.

(** What the configuration cell returns on [sample_environ "" "sk-123"]. *)
Definition sample_config : Config :=
  {| endpoint := "https://example.search.windows.net";
     key_credential := None;
     index_name := "langchain-index";
     azure_openai_endpoint := "https://example.openai.azure.com";
     azure_openai_key := Some "sk-123";
     azure_openai_embedding_deployment := "text-embedding-ada-002";
     azure_openai_api_version := "2024-02-01";
     credential := AmbientIdentity DefaultAzureCredential_new |}.

Definition sample_vector_store : AzureSearch.t :=
  vector_store_args sample_config (embeddings_args sample_config).

(** ** Further vocabulary *)

(** The first variable of [l], in order, that [environ] does not define. *)
Fixpoint first_missing (environ : gmap string string) (l : list string)
  : option string :=
  match l with
  | [] => None
  | k :: l' =>
      match environ !! k with
      | None => Some k
      | Some _ => first_missing environ l'
      end
  end.

(** The seven assignments of lines 67-73, without line 75: the values read
    from [os.environ], the two keys turned into [None] when empty. *)
Module Variables.
Record t := {
  endpoint : string;
  key_credential : option string;
  index_name : string;
  azure_openai_endpoint : string;
  azure_openai_key : option string;
  azure_openai_embedding_deployment : string;
  azure_openai_api_version : string
}.
End Variables.

Definition read_variables (environ : gmap string string) : Result Variables.t :=
  endpoint ← os_environ_get environ "AZURE_SEARCH_SERVICE_ENDPOINT";
  key_credential ← environ_key_or_None environ "AZURE_SEARCH_ADMIN_KEY";
  index_name ← os_environ_get environ "AZURE_SEARCH_INDEX";
  azure_openai_endpoint ← os_environ_get environ "AZURE_OPENAI_ENDPOINT";
  azure_openai_key ← environ_key_or_None environ "AZURE_OPENAI_KEY";
  azure_openai_embedding_deployment ←
    os_environ_get environ "AZURE_OPENAI_EMBEDDING_DEPLOYMENT";
  azure_openai_api_version ← os_environ_get environ "AZURE_OPENAI_API_VERSION";
  mret {| Variables.endpoint := endpoint;
          Variables.key_credential := key_credential;
          Variables.index_name := index_name;
          Variables.azure_openai_endpoint := azure_openai_endpoint;
          Variables.azure_openai_key := azure_openai_key;
          Variables.azure_openai_embedding_deployment :=
            azure_openai_embedding_deployment;
          Variables.azure_openai_api_version := azure_openai_api_version |}.

(** What X7 says of a call: if it is made on a search client, that client
    was given [key]. *)
Definition search_client_has_key (key : string) (R : Type) (c : Call R) : Prop :=
  ∀ vector_store,
    call_search_client c = Some vector_store →
    AzureSearch.azure_search_key vector_store = Some key.

(** The deployment, API version and endpoint of an embeddings object are
    the values of the three [AZURE_OPENAI_...] variables. *)
Definition embeddings_from_environ (environ : gmap string string)
    (e : AzureOpenAIEmbeddings) : Prop :=
  environ !! "AZURE_OPENAI_EMBEDDING_DEPLOYMENT" = Some (azure_deployment e) ∧
  environ !! "AZURE_OPENAI_API_VERSION" = Some (openai_api_version e) ∧
  environ !! "AZURE_OPENAI_ENDPOINT" = Some (azure_endpoint e).

(** What X8 says of a call: an embeddings object it constructs, and a search
    client it is made on, carry the values of the environment. *)
Definition clients_from_environ (environ : gmap string string)
    (R : Type) (c : Call R) : Prop :=
  (∀ e, call_embeddings c = Some e → embeddings_from_environ environ e) ∧
  (∀ vector_store,
     call_search_client c = Some vector_store →
     environ !! "AZURE_SEARCH_SERVICE_ENDPOINT"
       = Some (AzureSearch.azure_search_endpoint vector_store) ∧
     environ !! "AZURE_SEARCH_INDEX"
       = Some (AzureSearch.index_name vector_store) ∧
     AzureSearch.semantic_configuration_name vector_store = "default" ∧
     embeddings_from_environ environ
       (AzureSearch.embedding_function vector_store)).

(** The events of an iteration of the ingestion loop that a call ended by
    raising [e]: the call that raised is the loader's construction, the
    loading and splitting, the write, or the [print]. *)
Definition failed_file_events (vector_store : AzureSearch.t) (file : string)
    (e : PyError) (partial : list Event) : Prop :=
  let loader := pdf_loader file in
  partial = [ Ev (PyPDFLoader_init loader) (Err e) ] ∨
  partial = [ Ev (PyPDFLoader_init loader) (Ok ());
              Ev (load_and_split loader splitter) (Err e) ] ∨
  (∃ chunks,
     partial = [ Ev (PyPDFLoader_init loader) (Ok ());
                 Ev (load_and_split loader splitter) (Ok chunks);
                 Ev (add_documents vector_store chunks) (Err e) ]) ∨
  (∃ chunks ids,
     partial = [ Ev (PyPDFLoader_init loader) (Ok ());
                 Ev (load_and_split loader splitter) (Ok chunks);
                 Ev (add_documents vector_store chunks) (Ok ids);
                 Ev (print [Lit "Indexed "; Fmt (VStr file)]) (Err e) ]).

Definition is_search_call (R : Type) (c : Call R) : Prop :=
  match c with
  | similarity_search _ _ _ _ | semantic_hybrid_search_with_score _ _ _ => True
  | _ => False
  end.

Definition is_not_search_call (R : Type) (c : Call R) : Prop :=
  ¬ is_search_call R c.

(** The number of chunks a [load_and_split] call returned. *)
Definition event_chunks (ev : Event) : option nat :=
  match ev with
  | Ev c r =>
      match c in Call R return Result R → option nat with
      | load_and_split _ _ => λ r,
          match r with
          | Ok chunks => Some (length chunks)
          | Err _ => None
          end
      | _ => λ _, None
      end r
  end.

(** An [add_documents] call that returned, returned one id per document. *)
Definition one_id_per_document (ev : Event) : Prop :=
  match ev with
  | Ev c r =>
      match c in Call R return Result R → Prop with
      | add_documents _ documents => λ r,
          match r with
          | Ok ids => length ids = length documents
          | Err _ => True
          end
      | _ => λ _, True
      end r
  end.

(** The three lines a [similarity_search] cell prints for a document whose
    metadata gives [source]. *)
Definition printed_doc (doc : Document) (source : PyVal) : list Event :=
  [ Ev (print [Lit (str_mul "-" 80)]) (Ok ());
    Ev (print [Lit "Source: "; Fmt source]) (Ok ());
    Ev (print [Lit "Chunk Content: "; Fmt (VStr (page_content doc))]) (Ok ()) ].

Definition has_source (doc : Document) (source : PyVal) : Prop :=
  metadata doc !! "source" = Some source.

(** A world in which printing never raises. *)
Definition print_returns (w : World) : Prop :=
  ∀ h line, w h _ (print line) = Ok ().

(** A world that answers [similarity_search] with [results] and every other
    call as [world_ok] does. *)
Definition world_finding (results : list Document) : World := λ h R c,
  default (world_ok h R c)
    (match c in Call R return option (Result R) with
     | similarity_search _ _ _ _ => Some (Ok results)
     | _ => None
     end).

(** [x] is what the cell shows of the dictionary [d]: its ['highlights']
    entry when that entry is there and true, its ['text'] entry otherwise. *)
Definition highlights_or_text (d : gmap string PyVal) (x : PyVal) : Prop :=
  (d !! "highlights" = Some x ∧ truthy x = true) ∨
  (truthy (default VNone (d !! "highlights")) = false ∧ d !! "text" = Some x).

(** [o] is what the cell shows of the metadata value [v]: nothing when [v]
    is false, and otherwise the highlights or the text of the dictionary [v]. *)
Definition shown (v : PyVal) (o : option PyVal) : Prop :=
  match o with
  | None => truthy v = false
  | Some x => truthy v = true ∧ ∃ d, v = VDict d ∧ highlights_or_text d x
  end.

(** The lines the semantic cell prints for a document with its score, when
    it shows [answer] of the document's answers and [caption] of its
    captions. *)
Definition printed_scored_doc (ds : Document * spec_float)
    (answer_caption : option PyVal * option PyVal) : list Event :=
  let '(doc, score) := ds in
  let '(answer, caption) := answer_caption in
  [ Ev (print [Lit (str_mul "-" 80)]) (Ok ()) ]
  ++ match answer with
     | Some x =>
         [ Ev (print [Lit "Semantic Answer: "; Fmt x]) (Ok ());
           Ev (print [Lit "Semantic Answer Score: "; Fmt (VFloat score)]) (Ok ()) ]
     | None => []
     end
  ++ [ Ev (print [Lit "Content:"; Lit " "; Fmt (VStr (page_content doc))]) (Ok ());
       Ev (print [Lit "Score: "; Fmt (VFloat score)]) (Ok ()) ]
  ++ [ match caption with
       | Some y => Ev (print [Lit "Caption: "; Fmt y]) (Ok ())
       | None => Ev (print [Lit "Caption not available"]) (Ok ())
       end ].

(** The document has ['answers'] and ['captions'] metadata, of which the
    cell shows [answer_caption]. *)
Definition shows (ds : Document * spec_float)
    (answer_caption : option PyVal * option PyVal) : Prop :=
  ∃ answers captions,
    metadata ds.1 !! "answers" = Some answers ∧
    metadata ds.1 !! "captions" = Some captions ∧
    shown answers answer_caption.1 ∧
    shown captions answer_caption.2.

(** A world that answers [semantic_hybrid_search_with_score] with [results]
    and every other call as [world_ok] does. *)
Definition world_finding_scored (results : list (Document * spec_float))
  : World := λ h R c,
  default (world_ok h R c)
    (match c in Call R return option (Result R) with
     | semantic_hybrid_search_with_score _ _ _ => Some (Ok results)
     | _ => None
     end).

(** * Properties *)

(** ** Runs of sequenced programs *)

Lemma run_bind {A B} (w : World) (p : Notebook A) (f : A → Notebook B) h :
  run w h (p ≫= f) =
  match run w h p with
  | (h', Ok a) => run w h' (f a)
  | (h', Err e) => (h', Err e)
  end.
Proof.
  revert h. induction p as [a | e | R c k IH]; intros h; try reflexivity.
  change (run w h (Perform c k ≫= f))
    with (run w h (Perform c (λ r, k r ≫= f))).
  simpl. destruct (w h R c) as [r | e]; [apply IH | reflexivity].
Qed.

Lemma run_call {R} (w : World) (c : Call R) h :
  run w h (call c) =
  match w h R c with
  | Ok r => (h ++ [Ev c (Ok r)], Ok r)
  | Err e => (h ++ [Ev c (Err e)], Err e)
  end.
Proof. simpl. destruct (w h R c); reflexivity. Qed.

Lemma run_lift {A} (w : World) (r : Result A) h : run w h (lift r) = (h, r).
Proof. destruct r; reflexivity. Qed.

(** A run only adds events; every call before the last one returned, and a
    call that raised is the last event and its exception the outcome. *)
Lemma run_raise_last {A} (w : World) (p : Notebook A) h tr res :
  run w h p = (tr, res) →
  ∃ new, tr = h ++ new ∧
    ∀ pre ev post, new = pre ++ ev :: post →
      match event_error ev with
      | Some e => post = [] ∧ res = Err e
      | None => True
      end ∧ Forall (λ ev', event_error ev' = None) pre.
Proof.
  revert h. induction p as [a | e | R c k IH]; simpl; intros h Hrun.
  - injection Hrun as <- <-. exists []. split; [by rewrite app_nil_r |].
    intros [|] ? ? ?; discriminate.
  - injection Hrun as <- <-. exists []. split; [by rewrite app_nil_r |].
    intros [|] ? ? ?; discriminate.
  - destruct (w h R c) as [r | e].
    + apply IH in Hrun as (new & -> & Hnew).
      exists (Ev c (Ok r) :: new). split; [by rewrite <- app_assoc |].
      intros [| ev0 pre] ev post Heq; simplify_eq/=.
      * split; [done | constructor].
      * destruct (Hnew _ _ _ eq_refl) as [? ?].
        split; [done | by constructor].
    + injection Hrun as <- <-. exists [Ev c (Err e)]. split; [done |].
      intros [| ev0 [| ? ?]] ev post Heq; simplify_eq/=.
      split; [done | constructor].
Qed.

(** ** The configuration cell *)

Lemma os_environ_get_Ok environ key v :
  os_environ_get environ key = Ok v ↔ environ !! key = Some v.
Proof. unfold os_environ_get. destruct (environ !! key); naive_solver. Qed.

Lemma os_environ_get_Err environ key e :
  os_environ_get environ key = Err e ↔
  environ !! key = None ∧ e = KeyError key.
Proof. unfold os_environ_get. destruct (environ !! key); naive_solver. Qed.

(** A key variable is [None] exactly when it is set to the empty string. *)
Lemma environ_key_or_None_Ok environ key o :
  environ_key_or_None environ key = Ok o ↔
  ∃ v, environ !! key = Some v ∧ o = (if String.eqb v "" then None else Some v).
Proof.
  unfold environ_key_or_None, os_environ_get.
  destruct (environ !! key) as [v |] eqn:Hv; simpl; [| naive_solver].
  destruct v as [| a v]; simpl; unfold mret, Result_ret;
    (split; [intros [= <-]; eauto | intros (v' & [= <-] & ->); done]).
Qed.

Lemma environ_key_or_None_Err environ key e :
  environ_key_or_None environ key = Err e ↔
  environ !! key = None ∧ e = KeyError key.
Proof.
  unfold environ_key_or_None, os_environ_get.
  destruct (environ !! key) as [v |] eqn:Hv; simpl; [| naive_solver].
  destruct v as [| a v]; simpl; unfold mret, Result_ret; naive_solver.
Qed.

(** Case analysis on the first read of a sequence of reads. *)
Ltac read_environ :=
  match goal with
  | |- context [?x ≫= _] =>
      lazymatch x with
      | os_environ_get ?m ?k =>
          let H := fresh "Hget" in
          destruct (os_environ_get m k) eqn:H; simpl;
          [apply os_environ_get_Ok in H
          | apply os_environ_get_Err in H as [H ->]]
      | environ_key_or_None ?m ?k =>
          let H := fresh "Hkey" in
          destruct (environ_key_or_None m k) eqn:H; simpl;
          [apply environ_key_or_None_Ok in H as (? & H & ->)
          | apply environ_key_or_None_Err in H as [H ->]]
      end
  end.

(** If a variable the cell reads is missing, the cell raises [KeyError] for
    a missing variable. *)
Lemma load_config_absent environ k :
  k ∈ config_variables → environ !! k = None →
  ∃ k', k' ∈ config_variables ∧ environ !! k' = None ∧
        load_config environ = Err (KeyError k').
Proof.
  intros Hk Hnone. unfold load_config, config_variables in *.
  repeat (read_environ; [| eexists; split; [| split; [eassumption | reflexivity]];
                            set_solver]).
  exfalso. set_unfold. naive_solver.
Qed.

(** If every variable the cell reads is set, to any value, the cell
    returns; the two key variables are [None] when set to the empty
    string. *)
Lemma load_config_present environ :
  (∀ k, k ∈ config_variables → is_Some (environ !! k)) →
  ∃ cfg admin_key openai_key,
    load_config environ = Ok cfg ∧
    environ !! "AZURE_SEARCH_SERVICE_ENDPOINT" = Some (endpoint cfg) ∧
    environ !! "AZURE_SEARCH_ADMIN_KEY" = Some admin_key ∧
    key_credential cfg = (if String.eqb admin_key "" then None else Some admin_key) ∧
    environ !! "AZURE_SEARCH_INDEX" = Some (index_name cfg) ∧
    environ !! "AZURE_OPENAI_ENDPOINT" = Some (azure_openai_endpoint cfg) ∧
    environ !! "AZURE_OPENAI_KEY" = Some openai_key ∧
    azure_openai_key cfg = (if String.eqb openai_key "" then None else Some openai_key) ∧
    environ !! "AZURE_OPENAI_EMBEDDING_DEPLOYMENT"
      = Some (azure_openai_embedding_deployment cfg) ∧
    environ !! "AZURE_OPENAI_API_VERSION" = Some (azure_openai_api_version cfg) ∧
    credential cfg = or_DefaultAzureCredential (key_credential cfg).
Proof.
  intros Hall. unfold load_config.
  repeat (read_environ;
    [| match goal with H : _ !! ?k = None |- _ =>
         destruct (Hall k) as [? ?]; [unfold config_variables; set_solver | congruence]
       end]).
  eexists _, _, _. split; [reflexivity |]. simpl. repeat split; eauto.
Qed.

(** Whatever the cell returns was read from the environment. *)
Lemma load_config_Ok environ cfg :
  load_config environ = Ok cfg →
  ∃ admin_key openai_key,
    environ !! "AZURE_SEARCH_ADMIN_KEY" = Some admin_key ∧
    key_credential cfg = (if String.eqb admin_key "" then None else Some admin_key) ∧
    environ !! "AZURE_OPENAI_KEY" = Some openai_key ∧
    azure_openai_key cfg = (if String.eqb openai_key "" then None else Some openai_key) ∧
    credential cfg = or_DefaultAzureCredential (key_credential cfg).
Proof.
  unfold load_config.
  repeat (read_environ; [| discriminate]).
  intros [= <-]. simpl. eauto 10.
Qed.

(** ** Properties of every call a program can make *)

Section all_calls.
Context (P : ∀ R, Call R → Prop).

Lemma all_calls_bind {A B} (p : Notebook A) (f : A → Notebook B) :
  all_calls P p → (∀ a, all_calls P (f a)) → all_calls P (p ≫= f).
Proof.
  intros Hp Hf. induction p as [a | e | R c k IH]; simpl in *; [done.. |].
  destruct Hp as [Hc Hk]. split; [done |]. intros r. by apply IH.
Qed.

Lemma all_calls_lift {A} (r : Result A) : all_calls P (lift r).
Proof. by destruct r. Qed.

Lemma all_calls_call {R} (c : Call R) : P R c → all_calls P (call c).
Proof. by split. Qed.

Lemma all_calls_for_in {A S} (l : list A) (body : A → S → Notebook S) s :
  (∀ x s', all_calls P (body x s')) → all_calls P (for_in l body s).
Proof.
  intros Hbody. revert s.
  induction l as [| x l IH]; intros s; simpl; [done |].
  by apply all_calls_bind.
Qed.

Lemma all_calls_for_in_elem {A S} (l : list A) (body : A → S → Notebook S) s :
  (∀ x s', x ∈ l → all_calls P (body x s')) → all_calls P (for_in l body s).
Proof.
  revert s. induction l as [| x l IH]; intros s Hbody; simpl; [done |].
  apply all_calls_bind; [apply Hbody; left |].
  intros s'. apply IH. intros y s'' Hy. apply Hbody. by right.
Qed.

Lemma run_all_calls {A} (w : World) (p : Notebook A) h tr res :
  all_calls P p → run w h p = (tr, res) →
  ∃ new, tr = h ++ new ∧ Forall (event_call_satisfies P) new.
Proof.
  revert h. induction p as [a | e | R c k IH]; simpl; intros h Hp Hrun.
  - injection Hrun as <- <-. exists []. by rewrite app_nil_r.
  - injection Hrun as <- <-. exists []. by rewrite app_nil_r.
  - destruct Hp as [Hc Hk]. destruct (w h R c) as [r | e].
    + apply IH in Hrun as (new & -> & Hnew); [| done].
      exists (Ev c (Ok r) :: new). rewrite <- app_assoc.
      split; [done | by constructor].
    + injection Hrun as <- <-. exists [Ev c (Err e)].
      split; [done | by repeat constructor].
Qed.
End all_calls.

(** Splits a goal [all_calls P p] along the structure of [p]. *)
Ltac all_calls_step :=
  lazymatch goal with
  | |- all_calls _ (_ ≫= _) => apply all_calls_bind; [| intros ?]
  | |- all_calls _ (lift _) => apply all_calls_lift
  | |- all_calls _ (call _) => apply all_calls_call
  | |- all_calls _ (for_in _ _ _) => apply all_calls_for_in; intros ? ?
  | |- all_calls _ (mret _) => exact I
  | |- all_calls _ (if ?b then _ else _) => destruct b
  | |- all_calls _ (let '(_, _) := ?x in _) => destruct x
  end.

(** The calls of the cells after the configuration cell: the construction
    of the embeddings object, calls on the search client built from it,
    loading and splitting one of the three files, and printing. *)
Lemma all_calls_cells (P : ∀ R, Call R → Prop) cfg :
  let embeddings := embeddings_args cfg in
  let vector_store := vector_store_args cfg embeddings in
  P _ (AzureOpenAIEmbeddings_init embeddings) →
  (∀ R (c : Call R), call_search_client c = Some vector_store → P R c) →
  (∀ file, file ∈ files →
     P _ (PyPDFLoader_init (pdf_loader file)) ∧
     P _ (load_and_split (pdf_loader file) splitter)) →
  (∀ line, P _ (print line)) →
  all_calls P (cells_after_config cfg).
Proof.
  intros embeddings vector_store Hemb Hvs Hload Hprint.
  unfold cells_after_config, cell_embeddings, cell_vector_store.
  cbn -[cell_ingest cell_vector_search cell_hybrid_search
        cell_semantic_hybrid_search].
  split; [exact Hemb |]. intros _. split; [by apply Hvs |]. intros _.
  apply all_calls_bind.
  { unfold cell_ingest. apply all_calls_bind; [| intros ?; by repeat all_calls_step].
    apply all_calls_for_in_elem. intros file total_chunks Hfile.
    destruct (Hload file Hfile). unfold ingest_file.
    repeat all_calls_step; first [done | by apply Hvs]. }
  intros _.
  unfold cell_vector_search, cell_hybrid_search,
    cell_similarity_search, cell_semantic_hybrid_search,
    print_doc, print_doc_and_score, print_highlights_or_text.
  repeat all_calls_step; first [by apply Hvs | by apply Hprint].
Qed.

Example load_sample_config :
  load_config (sample_environ "" "sk-123") = Ok sample_config.
Proof. vm_compute. reflexivity. Qed.

(** ** Configuration: missing and empty variables *)

(** A run of the notebook whose configuration cell raises performs no call. *)
Lemma run_notebook_config_error w dotenv env e :
  cell_load_env dotenv env = Err e →
  run w [] (notebook dotenv env) = ([], Err e).
Proof. intros He. unfold notebook. by rewrite He. Qed.

(** A run of the notebook whose configuration cell returns [cfg] is the run
    of the remaining cells on [cfg]. *)
Lemma run_notebook_config_ok w dotenv env cfg :
  cell_load_env dotenv env = Ok cfg →
  run w [] (notebook dotenv env) = run w [] (cells_after_config cfg).
Proof. intros Hcfg. unfold notebook. by rewrite Hcfg. Qed.

(** C3, counterexample: with [AZURE_SEARCH_INDEX] set to the empty string
    and every other variable set, the configuration cell returns, with the
    empty string as index name. *)
Lemma empty_required_variable_is_accepted :
  let environ := <["AZURE_SEARCH_INDEX" := ""]> (sample_environ "" "sk-123") in
  "AZURE_SEARCH_INDEX" ∈ required_variables ∧
  environ !! "AZURE_SEARCH_INDEX" = Some "" ∧
  (∃ cfg, load_config environ = Ok cfg ∧ index_name cfg = "") ∧
  ¬ fails_on_absent_or_empty_required_variable.
Proof.
  intros environ.
  assert (Hin : "AZURE_SEARCH_INDEX" ∈ required_variables)
    by (unfold required_variables; set_solver).
  assert (Hempty : environ !! "AZURE_SEARCH_INDEX" = Some "")
    by apply lookup_insert_eq.
  assert (Hok : ∃ cfg, load_config environ = Ok cfg ∧ index_name cfg = "")
    by (eexists; split; [vm_compute; reflexivity | reflexivity]).
  repeat split; try done.
  intros Hclaim.
  destruct (Hclaim environ _ Hin (or_intror Hempty)) as [e He].
  destruct Hok as (cfg & Hcfg & _). congruence.
Qed.

(** C3, amended: if a required variable is absent from the environment left
    by [load_dotenv], the notebook stops with [KeyError] for a variable that
    is absent, before performing any library call. *)
Theorem missing_required_variable_aborts_before_any_call
    (w : World) (dotenv env : gmap string string) (k : string) :
  k ∈ required_variables →
  load_dotenv true dotenv env !! k = None →
  ∃ k', k' ∈ config_variables ∧
        load_dotenv true dotenv env !! k' = None ∧
        run w [] (notebook dotenv env) = ([], Err (KeyError k')).
Proof.
  intros Hk Hnone.
  destruct (load_config_absent (load_dotenv true dotenv env) k)
    as (k' & Hk' & Hnone' & Herr); [| done |].
  { unfold required_variables, config_variables in *. set_solver. }
  exists k'. repeat split; [done.. |].
  by apply run_notebook_config_error.
Qed.

(** An instance: [AZURE_OPENAI_ENDPOINT] is missing. *)
Lemma missing_required_variable_aborts_witness :
  ∃ k', k' ∈ config_variables ∧
        load_dotenv true ∅ (delete "AZURE_OPENAI_ENDPOINT" (sample_environ "" ""))
          !! k' = None ∧
        run world_ok []
          (notebook ∅ (delete "AZURE_OPENAI_ENDPOINT" (sample_environ "" "")))
        = ([], Err (KeyError k')).
Proof.
  apply (missing_required_variable_aborts_before_any_call world_ok ∅
           (delete "AZURE_OPENAI_ENDPOINT" (sample_environ "" ""))
           "AZURE_OPENAI_ENDPOINT").
  - unfold required_variables. set_solver.
  - vm_compute. reflexivity.
Defined.

(** C10: the two key variables must be set.  If either is absent the
    configuration cell raises [KeyError] for an absent variable; if every
    variable is set the cell returns, and a key variable set to the empty
    string becomes [None]: the search credential is then the ambient
    identity credential, and the embeddings object gets the token provider. *)
Theorem key_variables_must_be_set_but_may_be_empty
    (environ : gmap string string) :
  (environ !! "AZURE_SEARCH_ADMIN_KEY" = None ∨
   environ !! "AZURE_OPENAI_KEY" = None →
   ∃ k, environ !! k = None ∧ load_config environ = Err (KeyError k)) ∧
  ((∀ k, k ∈ config_variables → is_Some (environ !! k)) →
   ∃ cfg, load_config environ = Ok cfg ∧
     (environ !! "AZURE_SEARCH_ADMIN_KEY" = Some "" →
      key_credential cfg = None ∧
      credential cfg = AmbientIdentity DefaultAzureCredential_new ∧
      ∀ embeddings,
        AzureSearch.azure_search_key (vector_store_args cfg embeddings) = None) ∧
     (environ !! "AZURE_OPENAI_KEY" = Some "" →
      azure_openai_key cfg = None ∧
      api_key (embeddings_args cfg) = None ∧
      azure_ad_token_provider (embeddings_args cfg) = Some token_provider)).
Proof.
  split.
  - intros Habsent.
    assert (∃ k, k ∈ config_variables ∧ environ !! k = None) as (k & Hk & Hnone).
    { unfold config_variables. destruct Habsent; eexists; split; [| done | | done];
        set_solver. }
    destruct (load_config_absent environ k Hk Hnone) as (k' & _ & ? & ?).
    by exists k'.
  - intros Hall.
    destruct (load_config_present environ Hall)
      as (cfg & admin & openai & Hcfg & _ & Hadmin & Hkc & _ & _ & Hopenai & Hok & _ & _ & Hcred).
    exists cfg. split; [done |]. split.
    + intros Hempty. rewrite Hadmin in Hempty. injection Hempty as ->.
      simpl in Hkc. rewrite Hcred, Hkc. done.
    + intros Hempty. rewrite Hopenai in Hempty. injection Hempty as ->.
      simpl in Hok. unfold embeddings_args. simpl. rewrite Hok. done.
Qed.

(** Instances: [AZURE_OPENAI_KEY] missing, and both keys set but empty. *)
Lemma key_variables_must_be_set_but_may_be_empty_witness :
  (∃ k, delete "AZURE_OPENAI_KEY" (sample_environ "" "") !! k = None ∧
        load_config (delete "AZURE_OPENAI_KEY" (sample_environ "" ""))
        = Err (KeyError k)) ∧
  (∃ cfg, load_config (sample_environ "" "") = Ok cfg ∧
          key_credential cfg = None ∧ azure_openai_key cfg = None).
Proof.
  split.
  - apply (key_variables_must_be_set_but_may_be_empty
             (delete "AZURE_OPENAI_KEY" (sample_environ "" ""))).
    right. vm_compute. reflexivity.
  - destruct (key_variables_must_be_set_but_may_be_empty (sample_environ "" ""))
      as [_ Hset].
    destruct Hset as (cfg & Hcfg & Hadmin & Hopenai).
    + intros k Hk. unfold config_variables in Hk.
      repeat (apply elem_of_cons in Hk as [-> | Hk];
              [vm_compute; eexists; reflexivity |]).
      by apply elem_of_nil in Hk.
    + exists cfg. split; [done |]. split.
      * apply Hadmin. vm_compute. reflexivity.
      * apply Hopenai. vm_compute. reflexivity.
Defined.

(** ** Credentials handed to the clients *)

(** The calls of a run of the notebook, when the configuration cell
    returned [cfg]: the embeddings object is [embeddings_args cfg], every
    search call is made on [vector_store_args cfg (embeddings_args cfg)]. *)
Lemma run_notebook_calls (P : ∀ R, Call R → Prop) w dotenv env tr res :
  (∀ cfg, cell_load_env dotenv env = Ok cfg →
     P _ (AzureOpenAIEmbeddings_init (embeddings_args cfg)) ∧
     ∀ R (c : Call R),
       call_search_client c = Some (vector_store_args cfg (embeddings_args cfg)) →
       P R c) →
  (∀ file, file ∈ files →
     P _ (PyPDFLoader_init (pdf_loader file)) ∧
     P _ (load_and_split (pdf_loader file) splitter)) →
  (∀ line, P _ (print line)) →
  run w [] (notebook dotenv env) = (tr, res) →
  Forall (event_call_satisfies P) tr.
Proof.
  intros Hcfg Hload Hprint Hrun.
  destruct (cell_load_env dotenv env) as [cfg | e] eqn:Hcell.
  - rewrite (run_notebook_config_ok _ _ _ _ Hcell) in Hrun.
    destruct (Hcfg cfg eq_refl) as [Hemb Hvs].
    eapply run_all_calls in Hrun as (new & -> & Hnew); [done |].
    by apply all_calls_cells.
  - rewrite (run_notebook_config_error _ _ _ _ Hcell) in Hrun.
    injection Hrun as <- <-. constructor.
Qed.

(** X18: in every run in which [AZURE_SEARCH_ADMIN_KEY] is set to the empty
    string, [key_credential] is [None], the variable [credential] is the
    ambient identity credential, and the search client is constructed, and
    used in every call, with no key ([azure_search_key=None]).  The
    variable [credential] is passed to no call: the cells after the
    configuration cell are the same whatever its value.  What the search
    client does when it is given no key is the library's. *)
Theorem empty_admin_key_gives_no_search_key
    (w : World) (dotenv env : gmap string string) tr res :
  load_dotenv true dotenv env !! "AZURE_SEARCH_ADMIN_KEY" = Some "" →
  run w [] (notebook dotenv env) = (tr, res) →
  (∀ cfg, cell_load_env dotenv env = Ok cfg →
     key_credential cfg = None ∧
     credential cfg = AmbientIdentity DefaultAzureCredential_new) ∧
  Forall (event_call_satisfies search_client_has_no_key) tr ∧
  (∀ cfg c, cells_after_config (with_credential cfg c) = cells_after_config cfg).
Proof.
  intros Hempty Hrun.
  assert (Hkey : ∀ cfg, cell_load_env dotenv env = Ok cfg →
            key_credential cfg = None ∧
            credential cfg = AmbientIdentity DefaultAzureCredential_new).
  { intros cfg Hcfg.
    apply load_config_Ok in Hcfg as (admin & _ & Hadmin & Hkc & _ & _ & Hcred).
    rewrite Hadmin in Hempty. injection Hempty as ->.
    simpl in Hkc. by rewrite Hcred, Hkc. }
  split; [done |]. split; [| reflexivity].
  apply (run_notebook_calls search_client_has_no_key w dotenv env tr res);
    [| by split; intros vs [=] | by intros line vs [=] | done].
  intros cfg Hcfg. destruct (Hkey cfg Hcfg) as [Hkc _].
  split; [intros vs [=] |].
  intros R c Hc vs Hvs. rewrite Hc in Hvs. injection Hvs as <-. done.
Qed.

(** An instance: an empty admin key, in a run that completes. *)
Lemma empty_admin_key_gives_no_search_key_witness :
  (∀ cfg, cell_load_env ∅ (sample_environ "" "sk-123") = Ok cfg →
     key_credential cfg = None ∧
     credential cfg = AmbientIdentity DefaultAzureCredential_new) ∧
  Forall (event_call_satisfies search_client_has_no_key)
    (run world_ok [] (notebook ∅ (sample_environ "" "sk-123"))).1.
Proof.
  destruct (empty_admin_key_gives_no_search_key world_ok ∅
              (sample_environ "" "sk-123")
              (run world_ok [] (notebook ∅ (sample_environ "" "sk-123"))).1
              (run world_ok [] (notebook ∅ (sample_environ "" "sk-123"))).2)
    as (Hcredential & Hkey & _).
  - vm_compute. reflexivity.
  - vm_compute. reflexivity.
  - split; [exact Hcredential | exact Hkey].
Defined.



(** ** Query cells *)

Lemma all_calls_print_docs (docs : list Document) :
  all_calls is_print_call (for_in docs print_doc ()).
Proof. unfold print_doc. by repeat all_calls_step. Qed.

Lemma all_calls_print_docs_and_scores (ds : list (Document * spec_float)) :
  all_calls is_print_call (for_in ds print_doc_and_score ()).
Proof.
  unfold print_doc_and_score, print_highlights_or_text.
  by repeat all_calls_step.
Qed.

(** A cell of the form "one call, keep a part of the answer, print it",
    whether its run completes or stops. *)
Lemma run_query_cell {A} (w : World) (c : Call (list A))
    (body : A → () → Notebook ()) h tr res :
  (∀ l, all_calls is_print_call (for_in l body ())) →
  run w h (results ← call c;
           let results := take 3 results in
           for_in results body ();; mret results) = (tr, res) →
  one_search_then_prints w h c tr res.
Proof.
  intros Hbody. unfold one_search_then_prints. rewrite run_bind, run_call.
  destruct (w h _ c) as [results | e].
  - simpl. rewrite run_bind.
    destruct (run w (h ++ [Ev c (Ok results)])
                (for_in (take 3 results) body ()))
      as [tr' res'] eqn:Hloop.
    eapply run_all_calls in Hloop as (prints & -> & Hprints); [| apply Hbody].
    intros Hrun. exists prints.
    destruct res' as [[] | e]; injection Hrun as <- <-;
      rewrite <- app_assoc; repeat split; try done.
    intros kept [= <-]. by exists results.
  - intros [= <- <-]. exists []. repeat split; [constructor | discriminate].
Qed.

(** C4, counterexample: when the service returns four documents, the cell
    ends with three. *)
Lemma fourth_result_is_dropped : ¬ returns_results_as_produced.
Proof.
  intros Hclaim.
  pose (r := run world_ok [] (cell_vector_search sample_vector_store)).
  assert (Hlen : ∃ docs, r.2 = Ok docs ∧ length docs = 3)
    by (eexists; split; [vm_compute; reflexivity | reflexivity]).
  destruct Hlen as (docs & Hres & Hlen).
  specialize (Hclaim world_ok [] sample_vector_store r.1 docs _ eq_refl).
  rewrite Hclaim in Hlen; [discriminate Hlen |].
  rewrite <- Hres. apply surjective_pairing.
Qed.

(** C4, amended: in every run of each of the three query cells, completed
    or stopped, the first call is the search call, made with the query text
    and the bound [k=50], and every other call is a [print]; if the cell
    completes, the search call returned and what the cell keeps is the first
    three results of the sequence it returned, in the order returned. *)
Theorem query_cells_keep_first_three_results
    (w : World) (h : list Event) (vector_store : AzureSearch.t) :
  (∀ tr res,
     run w h (cell_vector_search vector_store) = (tr, res) →
     one_search_then_prints w h
       (similarity_search vector_store query_text 50 "similarity") tr res) ∧
  (∀ tr res,
     run w h (cell_hybrid_search vector_store) = (tr, res) →
     one_search_then_prints w h
       (similarity_search vector_store query_text 50 "hybrid") tr res) ∧
  (∀ tr res,
     run w h (cell_semantic_hybrid_search vector_store) = (tr, res) →
     one_search_then_prints w h
       (semantic_hybrid_search_with_score vector_store query_text 50) tr res).
Proof.
  repeat split; intros tr res Hrun.
  - apply (run_query_cell w _ print_doc);
      [apply all_calls_print_docs | exact Hrun].
  - apply (run_query_cell w _ print_doc);
      [apply all_calls_print_docs | exact Hrun].
  - apply (run_query_cell w _ print_doc_and_score);
      [apply all_calls_print_docs_and_scores | exact Hrun].
Qed.

(** An instance: the service returns four documents, the cell keeps three. *)
Lemma query_cells_keep_first_three_results_witness :
  one_search_then_prints world_ok []
    (similarity_search sample_vector_store query_text 50 "similarity")
    (run world_ok [] (cell_vector_search sample_vector_store)).1
    (Ok [ sample_document "a" "Benefit_Options.pdf";
          sample_document "b" "Benefit_Options.pdf";
          sample_document "c" "Benefit_Options.pdf" ]).
Proof.
  destruct (query_cells_keep_first_three_results world_ok [] sample_vector_store)
    as (Hvector & _ & _).
  apply Hvector. vm_compute. reflexivity.
Defined.

(** ** Ingestion *)

Lemma run_ingest_file w vector_store file total_chunks h tr total :
  run w h (ingest_file vector_store file total_chunks) = (tr, Ok total) →
  ∃ answer,
    tr = h ++ file_events vector_store file answer ∧
    total = total_chunks + length answer.2.
Proof.
  unfold ingest_file. cbn.
  repeat (match goal with
          | |- context [w ?h' ?R ?c] => destruct (w h' R c) as [? | ?]
          end; cbn; [| discriminate]).
  intros [= <- <-].
  match goal with
  | chunks : list Document, ids : list string |- _ => exists (chunks, ids)
  end.
  repeat match goal with u : () |- _ => destruct u end.
  split; [by rewrite <- !app_assoc | done].
Qed.

Lemma run_ingest_loop w vector_store fs h total_chunks tr total :
  run w h (for_in fs (ingest_file vector_store) total_chunks) = (tr, Ok total) →
  ∃ answers,
    length answers = length fs ∧
    tr = h ++ ingest_events vector_store fs answers ∧
    total = total_chunks + sum_list (written_counts answers).
Proof.
  revert h total_chunks tr total.
  induction fs as [| file fs IH]; intros h total_chunks tr total; cbn [for_in].
  - intros [= <- <-]. exists []. by rewrite app_nil_r, Nat.add_0_r.
  - rewrite run_bind.
    destruct (run w h (ingest_file vector_store file total_chunks))
      as [h1 [total1 | e]] eqn:Hfile; [| discriminate].
    apply run_ingest_file in Hfile as (answer & -> & ->).
    intros (answers & Hlen & -> & ->)%IH.
    exists (answer :: answers). simpl. rewrite Hlen, <- app_assoc.
    repeat split; try done. lia.
Qed.

(** A completed ingestion cell: one iteration per file, in order, then the
    line reporting the total. *)
Lemma run_cell_ingest w vector_store h tr total :
  run w h (cell_ingest vector_store) = (tr, Ok total) →
  ∃ answers,
    length answers = length files ∧
    tr = h ++ ingest_events vector_store files answers
           ++ [Ev (print [Lit "Indexed "; Fmt (VInt (Z.of_nat total));
                          Lit " chunks"]) (Ok ())] ∧
    total = sum_list (written_counts answers).
Proof.
  unfold cell_ingest. rewrite run_bind.
  destruct (run w h (for_in files (ingest_file vector_store) 0))
    as [h1 [total1 | e]] eqn:Hloop; [| discriminate].
  apply run_ingest_loop in Hloop as (answers & Hlen & -> & ->).
  cbn. destruct (w _ _ _) as [[] | ?]; [| discriminate].
  intros [= <- <-]. exists answers. by rewrite <- app_assoc.
Qed.

Lemma event_written_ingest_events vector_store fs answers :
  length answers = length fs →
  omap event_written (ingest_events vector_store fs answers)
  = written_counts answers.
Proof.
  revert answers. induction fs as [| file fs IH]; intros [| answer answers];
    simpl; try done.
  intros [= Hlen]. unfold ingest_events in IH. by rewrite IH.
Qed.

(** The answers of a completed ingestion are the world's answers. *)
Lemma run_ingest_file_answered w vector_store file total_chunks h tr total :
  run w h (ingest_file vector_store file total_chunks) = (tr, Ok total) →
  ∃ answer,
    answered_by w vector_store file answer ∧
    tr = h ++ file_events vector_store file answer ∧
    total = total_chunks + length answer.2.
Proof.
  unfold ingest_file. cbn.
  destruct (w _ _ _) as [[] | ?]; cbn; [| discriminate].
  match goal with
  | |- context [w ?h' _ (load_and_split ?l ?s)] =>
      destruct (w h' _ (load_and_split l s)) as [chunks | ?] eqn:Hchunks
  end; cbn; [| discriminate].
  match goal with
  | |- context [w ?h' _ (add_documents ?v ?d)] =>
      destruct (w h' _ (add_documents v d)) as [ids | ?] eqn:Hids
  end; cbn; [| discriminate].
  match goal with
  | |- context [w ?h' _ (print ?l)] =>
      destruct (w h' _ (print l)) as [[] | ?]
  end; cbn; [| discriminate].
  intros [= <- <-]. exists (chunks, ids). unfold answered_by.
  repeat split; [eexists; eassumption | eexists; eassumption |].
  by rewrite <- !app_assoc.
Qed.

Lemma run_ingest_loop_answered w vector_store fs h total_chunks tr total :
  run w h (for_in fs (ingest_file vector_store) total_chunks) = (tr, Ok total) →
  ∃ answers,
    Forall2 (answered_by w vector_store) fs answers ∧
    tr = h ++ ingest_events vector_store fs answers ∧
    total = total_chunks + sum_list (written_counts answers).
Proof.
  revert h total_chunks tr total.
  induction fs as [| file fs IH]; intros h total_chunks tr total; cbn [for_in].
  - intros [= <- <-]. exists []. split; [constructor |].
    by rewrite app_nil_r, Nat.add_0_r.
  - rewrite run_bind.
    destruct (run w h (ingest_file vector_store file total_chunks))
      as [h1 [total1 | e]] eqn:Hfile; [| discriminate].
    apply run_ingest_file_answered in Hfile as (answer & Hanswer & -> & ->).
    intros (answers & Hanswers & -> & ->)%IH.
    exists (answer :: answers). split; [by constructor |].
    simpl. rewrite <- app_assoc. split; [done | lia].
Qed.

Lemma run_cell_ingest_answered w vector_store h tr total :
  run w h (cell_ingest vector_store) = (tr, Ok total) →
  ∃ answers,
    Forall2 (answered_by w vector_store) files answers ∧
    tr = h ++ ingest_events vector_store files answers
           ++ [Ev (print [Lit "Indexed "; Fmt (VInt (Z.of_nat total));
                          Lit " chunks"]) (Ok ())] ∧
    total = sum_list (written_counts answers).
Proof.
  unfold cell_ingest. rewrite run_bind.
  destruct (run w h (for_in files (ingest_file vector_store) 0))
    as [h1 [total1 | e]] eqn:Hloop; [| discriminate].
  apply run_ingest_loop_answered in Hloop as (answers & Hanswers & -> & ->).
  cbn. destruct (w _ _ _) as [[] | ?]; [| discriminate].
  intros [= <- <-]. exists answers. by rewrite <- app_assoc.
Qed.

(** In two worlds with the same files and the same index, the per-file
    numbers of ids written are the same. *)
Lemma written_counts_alike w w' vector_store fs answers answers' :
  loads_alike w w' → writes_alike vector_store w w' →
  (∀ file, file ∈ fs → file ∈ files) →
  Forall2 (answered_by w vector_store) fs answers →
  Forall2 (answered_by w' vector_store) fs answers' →
  written_counts answers = written_counts answers'.
Proof.
  intros Hloads Hwrites Hfs Hanswers. revert answers'.
  induction Hanswers as [| file answer fs answers Hanswer _ IH];
    intros answers' Hanswers'.
  - by apply Forall2_nil_inv_l in Hanswers' as ->.
  - apply Forall2_cons_inv_l in Hanswers'
      as (answer' & answers'' & Hanswer' & Hanswers' & ->).
    unfold written_counts. simpl. f_equal.
    + destruct Hanswer as [[h1 Hchunks] [h2 Hids]].
      destruct Hanswer' as [[h1' Hchunks'] [h2' Hids']].
      rewrite (Hloads h1 h1' file) in Hchunks by (apply Hfs; by left).
      rewrite Hchunks in Hchunks'. injection Hchunks' as Heq.
      rewrite <- Heq in Hids'. by eapply Hwrites.
    + apply IH; [| done]. intros file' Hfile'. apply Hfs. by right.
Qed.

Lemma all_calls_ingest_splits vector_store :
  all_calls splits_with_window_1000_overlap_0 (cell_ingest vector_store).
Proof.
  unfold cell_ingest. apply all_calls_bind; [| intros ?; by repeat all_calls_step].
  apply all_calls_for_in_elem. intros file total_chunks Hfile.
  unfold ingest_file. repeat all_calls_step; simpl; eauto.
Qed.

(** C5: when the ingestion cell completes, it has made, for each of the
    three files in order, one [load_and_split] call and one [add_documents]
    call on the chunks returned; every [load_and_split] call it made was
    given the splitter of window 1000 and overlap 0; and the total it
    reports is the sum over the files of the number of ids [add_documents]
    returned.  The total is determined by the inputs: in a second
    completed run, from any history, in a world where the three files load
    and split alike and the same documents are written with the same number
    of ids, the cell reports the same total. *)
Theorem reported_total_is_sum_of_written_counts
    (w : World) (vector_store : AzureSearch.t) h tr total :
  run w h (cell_ingest vector_store) = (tr, Ok total) →
  (∃ answers,
     length answers = 3 ∧
     Forall2 (answered_by w vector_store) files answers ∧
     tr = h ++ ingest_events vector_store files answers
            ++ [Ev (print [Lit "Indexed "; Fmt (VInt (Z.of_nat total));
                           Lit " chunks"]) (Ok ())] ∧
     omap event_written (drop (length h) tr) = written_counts answers ∧
     total = sum_list (written_counts answers)) ∧
  Forall (event_call_satisfies splits_with_window_1000_overlap_0)
    (drop (length h) tr) ∧
  ∀ (w' : World) h' tr' total',
    loads_alike w w' →
    writes_alike vector_store w w' →
    run w' h' (cell_ingest vector_store) = (tr', Ok total') →
    total' = total.
Proof.
  intros Hrun.
  pose proof Hrun as (new & Htr & Hsplits)
    %(run_all_calls splits_with_window_1000_overlap_0);
    [| apply all_calls_ingest_splits].
  apply run_cell_ingest_answered in Hrun as (answers & Hanswers & -> & ->).
  assert (length answers = length files) as Hlen
    by (symmetry; by eapply Forall2_length).
  repeat split.
  - exists answers. repeat split; try done.
    rewrite drop_app_length, omap_app, event_written_ingest_events by done.
    simpl. by rewrite app_nil_r.
  - apply app_inv_head in Htr as <-. by rewrite drop_app_length.
  - intros w' h' tr' total' Hloads Hwrites
      (answers' & Hanswers' & _ & ->)%run_cell_ingest_answered.
    f_equal. symmetry.
    by apply (written_counts_alike w w' vector_store files).
Qed.

(** An instance: three files of two chunks each, six ids in total; a second
    run, from another history and in a world that differs only in what a
    search finds, reports six as well. *)
Lemma reported_total_is_sum_of_written_counts_witness :
  (∃ answers,
     length answers = 3 ∧
     Forall2 (answered_by world_ok sample_vector_store) files answers ∧
     (run world_ok [] (cell_ingest sample_vector_store)).1
     = [] ++ ingest_events sample_vector_store files answers
          ++ [Ev (print [Lit "Indexed "; Fmt (VInt (Z.of_nat 6));
                         Lit " chunks"]) (Ok ())] ∧
     omap event_written
       (drop (length (@nil Event))
          (run world_ok [] (cell_ingest sample_vector_store)).1)
     = written_counts answers ∧
     6 = sum_list (written_counts answers)) ∧
  ∀ total',
    (run (world_finding []) [Ev (print []) (Ok ())]
       (cell_ingest sample_vector_store)).2 = Ok total' →
    total' = 6.
Proof.
  destruct (reported_total_is_sum_of_written_counts world_ok sample_vector_store
              [] (run world_ok [] (cell_ingest sample_vector_store)).1 6)
    as (Hsum & _ & Hsame).
  - vm_compute. reflexivity.
  - split; [exact Hsum |].
    intros total' Hres.
    apply (Hsame (world_finding []) [Ev (print []) (Ok ())]
             (run (world_finding []) [Ev (print []) (Ok ())]
                (cell_ingest sample_vector_store)).1).
    + intros h h' file Hfile. reflexivity.
    + intros h h' documents ids ids' [= <-] [= <-].
      by rewrite !length_fmap.
    + rewrite <- Hres. apply surjective_pairing.
Defined.

(** ** Further properties of the ingestion cell *)

(** X2: in every run of the notebook, completed or not, every
    [load_and_split] call is made on the loader of one of the three files
    with the splitter configured with [chunk_size=1000], [chunk_overlap=0]. *)
Theorem every_split_uses_window_1000_overlap_0
    (w : World) (dotenv env : gmap string string) tr res :
  run w [] (notebook dotenv env) = (tr, res) →
  Forall (event_call_satisfies splits_with_window_1000_overlap_0) tr.
Proof.
  apply run_notebook_calls.
  - intros cfg _. split; [done |]. intros R c Hc. by destruct c.
  - intros file Hfile. split; [done |]. simpl. eauto.
  - done.
Qed.

(** An instance: a run that stops at the second file. *)
Lemma every_split_uses_window_1000_overlap_0_witness :
  Forall (event_call_satisfies splits_with_window_1000_overlap_0)
    (run world_second_write_fails []
       (notebook ∅ (sample_environ "" "sk-123"))).1.
Proof.
  apply (every_split_uses_window_1000_overlap_0 world_second_write_fails ∅
           (sample_environ "" "sk-123") _
           (run world_second_write_fails []
              (notebook ∅ (sample_environ "" "sk-123"))).2).
  vm_compute. reflexivity.
Defined.

(** X1: a completed run of the notebook starts with the construction of the
    embeddings object and of the search client, and then handles the three
    files one after the other: for each file the loader is constructed, the
    file is loaded and split, the chunks that call returned are handed, all
    together, to one [add_documents] call, and the file name is printed
    before the next file is touched; the total is printed after the last
    file. *)
Theorem ingestion_is_file_by_file
    (w : World) (dotenv env : gmap string string) tr :
  run w [] (notebook dotenv env) = (tr, Ok ()) →
  ∃ cfg answers rest,
    let embeddings := embeddings_args cfg in
    let vector_store := vector_store_args cfg embeddings in
    cell_load_env dotenv env = Ok cfg ∧
    length answers = 3 ∧
    tr = [ Ev (AzureOpenAIEmbeddings_init embeddings) (Ok ());
           Ev (AzureSearch_init vector_store) (Ok ()) ]
         ++ ingest_events vector_store files answers
         ++ Ev (print [Lit "Indexed ";
                       Fmt (VInt (Z.of_nat (sum_list (written_counts answers))));
                       Lit " chunks"]) (Ok ())
         :: rest.
Proof.
  intros Hrun.
  destruct (cell_load_env dotenv env) as [cfg | e] eqn:Hcell;
    [| by rewrite (run_notebook_config_error _ _ _ _ Hcell) in Hrun].
  rewrite (run_notebook_config_ok _ _ _ _ Hcell) in Hrun.
  unfold cells_after_config, cell_embeddings, cell_vector_store in Hrun.
  cbn -[cell_ingest cell_vector_search cell_hybrid_search
        cell_semantic_hybrid_search] in Hrun.
  destruct (w _ _ _) as [[] | ?]; [| discriminate].
  destruct (w _ _ _) as [[] | ?]; [| discriminate].
  rewrite run_bind in Hrun.
  destruct (run w _ (cell_ingest _)) as [h [total | ?]] eqn:Hingest;
    [| discriminate].
  apply run_cell_ingest in Hingest as (answers & Hlen & -> & ->).
  apply run_raise_last in Hrun as (rest & -> & _).
  exists cfg, answers, rest. repeat split; [done |].
  by rewrite <- !app_assoc.
Qed.

(** An instance: a run that completes. *)
Lemma ingestion_is_file_by_file_witness :
  ∃ cfg answers rest,
    let embeddings := embeddings_args cfg in
    let vector_store := vector_store_args cfg embeddings in
    cell_load_env ∅ (sample_environ "" "sk-123") = Ok cfg ∧
    length answers = 3 ∧
    (run world_ok [] (notebook ∅ (sample_environ "" "sk-123"))).1
    = [ Ev (AzureOpenAIEmbeddings_init embeddings) (Ok ());
        Ev (AzureSearch_init vector_store) (Ok ()) ]
      ++ ingest_events vector_store files answers
      ++ Ev (print [Lit "Indexed ";
                    Fmt (VInt (Z.of_nat (sum_list (written_counts answers))));
                    Lit " chunks"]) (Ok ())
      :: rest.
Proof.
  apply (ingestion_is_file_by_file world_ok ∅ (sample_environ "" "sk-123")).
  vm_compute. reflexivity.
Defined.

(** * Further properties of the cells *)

(** ** The reads of the configuration cell *)

Lemma first_missing_Some environ l k :
  first_missing environ l = Some k ↔
  ∃ pre post, l = pre ++ k :: post ∧
              (∀ k', k' ∈ pre → is_Some (environ !! k')) ∧
              environ !! k = None.
Proof.
  induction l as [| k0 l IH]; simpl.
  - split; [done |]. intros ([|] & ? & ? & _); discriminate.
  - destruct (environ !! k0) as [v |] eqn:Hk0.
    + rewrite IH. split.
      * intros (pre & post & -> & Hpre & Hk).
        exists (k0 :: pre), post. repeat split; [| done].
        intros k' [-> | Hk']%elem_of_cons; [by eexists | auto].
      * intros ([| k1 pre] & post & Heq & Hpre & Hk); simplify_eq/=.
        exists pre, post. repeat split; [| done].
        intros k' Hk'. apply Hpre. by right.
    + split.
      * intros [= <-]. exists [], l. repeat split; [| done].
        intros k' Hk'. by apply elem_of_nil in Hk'.
      * intros ([| k1 pre] & post & Heq & Hpre & Hk); simplify_eq/=; [done |].
        destruct (Hpre k1) as [? ?]; [by left | congruence].
Qed.

Lemma first_missing_None environ l :
  first_missing environ l = None ↔ ∀ k, k ∈ l → is_Some (environ !! k).
Proof.
  induction l as [| k0 l IH]; simpl.
  - split; [| done]. intros _ k Hk. by apply elem_of_nil in Hk.
  - destruct (environ !! k0) as [v |] eqn:Hk0.
    + rewrite IH. split.
      * intros Hl k [-> | Hk]%elem_of_cons; [by eexists | auto].
      * intros Hl k Hk. apply Hl. by right.
    + split; [done |]. intros Hl.
      destruct (Hl k0) as [? ?]; [by left | congruence].
Qed.

(** The reads of lines 67-73 are the reads of the configuration cell: the
    cell is these reads followed by line 75. *)
Lemma load_config_read_variables environ :
  load_config environ =
  vars ← read_variables environ;
  mret {| endpoint := Variables.endpoint vars;
          key_credential := Variables.key_credential vars;
          index_name := Variables.index_name vars;
          azure_openai_endpoint := Variables.azure_openai_endpoint vars;
          azure_openai_key := Variables.azure_openai_key vars;
          azure_openai_embedding_deployment :=
            Variables.azure_openai_embedding_deployment vars;
          azure_openai_api_version := Variables.azure_openai_api_version vars;
          credential :=
            or_DefaultAzureCredential (Variables.key_credential vars) |}.
Proof.
  unfold load_config, read_variables.
  repeat (read_environ; [| reflexivity]).
  reflexivity.
Qed.

(** The outcome of the seven reads, by the first variable missing. *)
Lemma read_variables_first_missing environ :
  match first_missing environ config_variables with
  | Some k => read_variables environ = Err (KeyError k)
  | None => ∃ vars, read_variables environ = Ok vars
  end.
Proof.
  unfold read_variables, config_variables. simpl first_missing.
  repeat (read_environ;
          match goal with H : environ !! _ = _ |- _ => rewrite H end;
          [| reflexivity]).
  by eexists.
Qed.

(** X3: the seven reads of the configuration cell (lines 67-73) all return
    exactly when all seven variables are set (to any value, the empty
    string included). *)
Theorem read_variables_return_iff_all_set (environ : gmap string string) :
  (∃ vars, read_variables environ = Ok vars) ↔
  ∀ k, k ∈ config_variables → is_Some (environ !! k).
Proof.
  rewrite <- first_missing_None.
  pose proof (read_variables_first_missing environ) as H.
  destruct (first_missing environ config_variables) as [k |].
  - split; [| done]. intros [vars Hvars]. congruence.
  - done.
Qed.

(** X4: the seven reads of the configuration cell (lines 67-73) raise only
    [KeyError], and the variable named is the first one, in reading order,
    that is not set: the variables read before it are all set.  The whole
    cell then raises that same [KeyError]: the reads come before line 75. *)
Theorem read_variables_error_names_first_missing
    (environ : gmap string string) (e : PyError) :
  (read_variables environ = Err e ↔
   ∃ pre k post,
     config_variables = pre ++ k :: post ∧
     (∀ k', k' ∈ pre → is_Some (environ !! k')) ∧
     environ !! k = None ∧
     e = KeyError k) ∧
  (read_variables environ = Err e → load_config environ = Err e).
Proof.
  split; [| intros He; by rewrite load_config_read_variables, He].
  pose proof (read_variables_first_missing environ) as H.
  destruct (first_missing environ config_variables) as [k |] eqn:Hfirst.
  - apply first_missing_Some in Hfirst as (pre & post & Hl & Hpre & Hk).
    split.
    + intros He. exists pre, k, post. repeat split; [done.. | congruence].
    + intros (pre' & k' & post' & Hl' & Hpre' & Hk' & ->).
      assert (first_missing environ config_variables = Some k') as Hfirst'
        by (apply first_missing_Some; eauto).
      assert (first_missing environ config_variables = Some k) as Hfirst
        by (apply first_missing_Some; eauto).
      congruence.
  - destruct H as [vars Hvars]. split; [congruence |].
    intros (pre & k & post & Hl & _ & Hk & _).
    rewrite first_missing_None in Hfirst.
    destruct (Hfirst k) as [? ?]; [| congruence].
    rewrite Hl. apply elem_of_app. right. by left.
Qed.

(** Everything the configuration cell returns, in terms of the environment. *)
Lemma load_config_Ok_values environ cfg :
  load_config environ = Ok cfg →
  ∃ admin_key openai_key,
    environ !! "AZURE_SEARCH_SERVICE_ENDPOINT" = Some (endpoint cfg) ∧
    environ !! "AZURE_SEARCH_ADMIN_KEY" = Some admin_key ∧
    key_credential cfg = (if String.eqb admin_key "" then None else Some admin_key) ∧
    environ !! "AZURE_SEARCH_INDEX" = Some (index_name cfg) ∧
    environ !! "AZURE_OPENAI_ENDPOINT" = Some (azure_openai_endpoint cfg) ∧
    environ !! "AZURE_OPENAI_KEY" = Some openai_key ∧
    azure_openai_key cfg = (if String.eqb openai_key "" then None else Some openai_key) ∧
    environ !! "AZURE_OPENAI_EMBEDDING_DEPLOYMENT"
      = Some (azure_openai_embedding_deployment cfg) ∧
    environ !! "AZURE_OPENAI_API_VERSION" = Some (azure_openai_api_version cfg) ∧
    credential cfg = or_DefaultAzureCredential (key_credential cfg).
Proof.
  unfold load_config.
  repeat (read_environ; [| discriminate]).
  intros [= <-]. simpl. eauto 15.
Qed.

(** X5: what the configuration cell returns is what the environment holds:
    the five required values are passed on unchanged, a key is [None] when
    its variable is empty and the variable's value otherwise (so a key is
    never the empty string), and the credential is the key when there is
    one and the ambient identity credential when there is none. *)
Theorem load_config_returns_the_environment
    (environ : gmap string string) (cfg : Config) :
  load_config environ = Ok cfg →
  environ !! "AZURE_SEARCH_SERVICE_ENDPOINT" = Some (endpoint cfg) ∧
  environ !! "AZURE_SEARCH_INDEX" = Some (index_name cfg) ∧
  environ !! "AZURE_OPENAI_ENDPOINT" = Some (azure_openai_endpoint cfg) ∧
  environ !! "AZURE_OPENAI_EMBEDDING_DEPLOYMENT"
    = Some (azure_openai_embedding_deployment cfg) ∧
  environ !! "AZURE_OPENAI_API_VERSION" = Some (azure_openai_api_version cfg) ∧
  environ !! "AZURE_SEARCH_ADMIN_KEY" = Some (default "" (key_credential cfg)) ∧
  environ !! "AZURE_OPENAI_KEY" = Some (default "" (azure_openai_key cfg)) ∧
  key_credential cfg ≠ Some "" ∧
  azure_openai_key cfg ≠ Some "" ∧
  credential cfg = match key_credential cfg with
                   | Some key => KeyString key
                   | None => AmbientIdentity DefaultAzureCredential_new
                   end.
Proof.
  intros (admin & openai & ? & Hadmin & Hkc & ? & ? & Hopenai & Hok & ? & ? & Hcred)
    %load_config_Ok_values.
  rewrite Hcred, Hkc, Hok, Hadmin, Hopenai.
  repeat split; try done.
  - by destruct (String.eqb_spec admin "") as [-> |].
  - by destruct (String.eqb_spec openai "") as [-> |].
  - destruct (String.eqb_spec admin "") as [-> |]; congruence.
  - destruct (String.eqb_spec openai "") as [-> |]; congruence.
  - destruct (String.eqb_spec admin "") as [-> | Hne]; [done |].
    simpl. apply String.eqb_neq in Hne. by rewrite Hne.
Qed.

(** An instance: an empty admin key and a non-empty API key. *)
Lemma load_config_returns_the_environment_witness :
  sample_environ "" "sk-123" !! "AZURE_SEARCH_ADMIN_KEY"
    = Some (default "" (key_credential sample_config)) ∧
  sample_environ "" "sk-123" !! "AZURE_OPENAI_KEY"
    = Some (default "" (azure_openai_key sample_config)).
Proof.
  destruct (load_config_returns_the_environment (sample_environ "" "sk-123")
              sample_config) as (_ & _ & _ & _ & _ & Hadmin & Hopenai & _).
  - vm_compute. reflexivity.
  - split; [exact Hadmin | exact Hopenai].
Defined.

(** X6: the seven reads of the configuration cell (lines 67-73) look at no
    variable other than the seven: two environments that agree on them give
    the same values, or the same [KeyError]. *)
Theorem read_variables_depends_only_on_config_variables
    (environ1 environ2 : gmap string string) :
  (∀ k, k ∈ config_variables → environ1 !! k = environ2 !! k) →
  read_variables environ1 = read_variables environ2.
Proof.
  intros Hagree.
  unfold read_variables, environ_key_or_None, os_environ_get.
  rewrite !Hagree by (unfold config_variables; set_solver).
  reflexivity.
Qed.

(** An instance: an unrelated variable is added to the environment. *)
Lemma read_variables_depends_only_on_config_variables_witness :
  read_variables (<["PATH" := "/usr/bin"]> (sample_environ "" "sk-123"))
  = read_variables (sample_environ "" "sk-123").
Proof.
  apply read_variables_depends_only_on_config_variables.
  intros k Hk. apply lookup_insert_ne.
  intros <-. unfold config_variables in Hk. set_solver.
Defined.

(** ** What the clients are constructed with *)

(** X7: in every run in which [AZURE_SEARCH_ADMIN_KEY] is set to a non-empty
    value, that value is the credential the notebook selects, and the search
    client is constructed, and used in every call, with that value as its
    key. *)
Theorem nonempty_admin_key_is_the_search_key
    (w : World) (dotenv env : gmap string string) (key : string) tr res :
  load_dotenv true dotenv env !! "AZURE_SEARCH_ADMIN_KEY" = Some key →
  key ≠ "" →
  run w [] (notebook dotenv env) = (tr, res) →
  (∀ cfg, cell_load_env dotenv env = Ok cfg →
     key_credential cfg = Some key ∧ credential cfg = KeyString key) ∧
  Forall (event_call_satisfies (search_client_has_key key)) tr.
Proof.
  intros Hkey Hne Hrun.
  assert (Hcfg : ∀ cfg, cell_load_env dotenv env = Ok cfg →
            key_credential cfg = Some key ∧ credential cfg = KeyString key).
  { intros cfg Hcfg.
    apply load_config_Ok in Hcfg as (admin & _ & Hadmin & Hkc & _ & _ & Hcred).
    rewrite Hadmin in Hkey. injection Hkey as ->.
    apply String.eqb_neq in Hne. rewrite Hne in Hkc.
    rewrite Hcred, Hkc. simpl. by rewrite Hne. }
  split; [done |].
  apply (run_notebook_calls (search_client_has_key key) w dotenv env tr res);
    [| by split; intros vs [=] | by intros line vs [=] | done].
  intros cfg Hload. destruct (Hcfg cfg Hload) as [Hkc _].
  split; [intros vs [=] |].
  intros R c Hc vs Hvs. rewrite Hc in Hvs. injection Hvs as <-. done.
Qed.

(** An instance: the admin key is ["admin-key"], in a run that completes. *)
Lemma nonempty_admin_key_is_the_search_key_witness :
  Forall (event_call_satisfies (search_client_has_key "admin-key"))
    (run world_ok [] (notebook ∅ (sample_environ "admin-key" ""))).1.
Proof.
  apply (nonempty_admin_key_is_the_search_key world_ok ∅
           (sample_environ "admin-key" "") "admin-key" _
           (run world_ok [] (notebook ∅ (sample_environ "admin-key" ""))).2).
  - vm_compute. reflexivity.
  - discriminate.
  - vm_compute. reflexivity.
Defined.

(** X8: in every run, the embeddings object is constructed with the
    deployment, API version and endpoint the environment gives, and every
    call on the search client is made on a client constructed with the
    endpoint and index name the environment gives, the semantic
    configuration ["default"], and such an embeddings object as its
    embedding function. *)
Theorem clients_are_constructed_from_the_environment
    (w : World) (dotenv env : gmap string string) tr res :
  run w [] (notebook dotenv env) = (tr, res) →
  Forall (event_call_satisfies (clients_from_environ (load_dotenv true dotenv env)))
    tr.
Proof.
  apply run_notebook_calls.
  - intros cfg Hcfg.
    apply load_config_Ok_values in Hcfg
      as (admin & openai & ? & _ & _ & ? & ? & _ & _ & ? & ? & _).
    assert (embeddings_from_environ (load_dotenv true dotenv env)
              (embeddings_args cfg)) as Hemb by done.
    split.
    + split; [by intros e [= <-] | intros vs [=]].
    + intros R c Hc. split; [intros e He; destruct c; discriminate |].
      intros vs Hvs. rewrite Hc in Hvs. injection Hvs as <-. done.
  - by split; split; intros ? [=].
  - by split; intros ? [=].
Qed.

(** An instance: a run that completes. *)
Lemma clients_are_constructed_from_the_environment_witness :
  Forall (event_call_satisfies
            (clients_from_environ (load_dotenv true ∅ (sample_environ "" "sk-123"))))
    (run world_ok [] (notebook ∅ (sample_environ "" "sk-123"))).1.
Proof.
  apply (clients_are_constructed_from_the_environment world_ok ∅
           (sample_environ "" "sk-123") _
           (run world_ok [] (notebook ∅ (sample_environ "" "sk-123"))).2).
  vm_compute. reflexivity.
Defined.

(** ** Ingestion that stops, and what the total counts *)

Lemma run_ingest_file_err w vector_store file total_chunks h tr e :
  run w h (ingest_file vector_store file total_chunks) = (tr, Err e) →
  ∃ partial, tr = h ++ partial ∧ failed_file_events vector_store file e partial.
Proof.
  unfold ingest_file, failed_file_events. cbn.
  destruct (w _ _ _) as [[] | ?]; cbn;
    [| intros [= <- <-]; eexists; split; [done | by left]].
  destruct (w _ _ _) as [chunks | ?]; cbn;
    [| intros [= <- <-]; eexists; split;
       [by rewrite <- !app_assoc | right; by left]].
  destruct (w _ _ _) as [ids | ?]; cbn;
    [| intros [= <- <-]; eexists; split;
       [by rewrite <- !app_assoc | right; right; left; by eexists]].
  destruct (w _ _ _) as [[] | ?]; cbn; [discriminate |].
  intros [= <- <-]. eexists. split; [by rewrite <- !app_assoc |].
  right; right; right. by eexists _, _.
Qed.

Lemma run_ingest_loop_err w vector_store fs h total_chunks tr e :
  run w h (for_in fs (ingest_file vector_store) total_chunks) = (tr, Err e) →
  ∃ n file answers partial,
    fs !! n = Some file ∧
    length answers = n ∧
    tr = h ++ ingest_events vector_store (take n fs) answers ++ partial ∧
    failed_file_events vector_store file e partial.
Proof.
  revert h total_chunks tr.
  induction fs as [| file fs IH]; intros h total_chunks tr; cbn [for_in];
    [discriminate |].
  rewrite run_bind.
  destruct (run w h (ingest_file vector_store file total_chunks))
    as [h1 [total1 | e1]] eqn:Hfile.
  - apply run_ingest_file in Hfile as (answer & -> & ->).
    intros (n & file' & answers & partial & Hn & Hlen & -> & Hfailed)%IH.
    exists (S n), file', (answer :: answers), partial.
    repeat split; [done | by simpl; rewrite Hlen | | done].
    unfold ingest_events. simpl. by rewrite <- !app_assoc.
  - intros [= <- <-].
    apply run_ingest_file_err in Hfile as (partial & -> & Hfailed).
    by exists 0, file, [], partial.
Qed.

(** X9: when the ingestion cell stops on an exception, the files before the
    one being handled have been loaded, split and written in full, nothing
    is undone, and the exception comes from one of the four calls made for
    the file being handled, or, after the last file, from printing the total
    (which is then the sum of the ids written). *)
Theorem stopped_ingestion_keeps_earlier_files
    (w : World) (vector_store : AzureSearch.t) h tr e :
  run w h (cell_ingest vector_store) = (tr, Err e) →
  ∃ n answers partial,
    length answers = n ∧
    tr = h ++ ingest_events vector_store (take n files) answers ++ partial ∧
    ((∃ file, files !! n = Some file ∧
              failed_file_events vector_store file e partial) ∨
     (n = length files ∧
      partial = [Ev (print [Lit "Indexed ";
                            Fmt (VInt (Z.of_nat (sum_list (written_counts answers))));
                            Lit " chunks"]) (Err e)])).
Proof.
  unfold cell_ingest. rewrite run_bind.
  destruct (run w h (for_in files (ingest_file vector_store) 0))
    as [h1 [total1 | e1]] eqn:Hloop.
  - apply run_ingest_loop in Hloop as (answers & Hlen & -> & ->).
    cbn. destruct (w _ _ _) as [[] | e1]; [discriminate |].
    intros [= <- <-]. eexists (length files), answers, _.
    split; [done |]. split; [by rewrite firstn_all, <- app_assoc |]. by right.
  - intros [= <- <-].
    apply run_ingest_loop_err in Hloop
      as (n & file & answers & partial & Hn & Hlen & -> & Hfailed).
    exists n, answers, partial. repeat split; [done |]. left. eauto.
Qed.

(** An instance: the write of the second file raises; the first file's four
    events are in the run, the total is never printed. *)
Lemma stopped_ingestion_keeps_earlier_files_witness :
  ∃ n answers partial,
    length answers = n ∧
    (run world_second_write_fails [] (cell_ingest sample_vector_store)).1
    = [] ++ ingest_events sample_vector_store (take n files) answers ++ partial ∧
    ((∃ file, files !! n = Some file ∧
              failed_file_events sample_vector_store file
                (LibraryError "HttpResponseError") partial) ∨
     (n = length files ∧
      partial = [Ev (print [Lit "Indexed ";
                            Fmt (VInt (Z.of_nat (sum_list (written_counts answers))));
                            Lit " chunks"])
                   (Err (LibraryError "HttpResponseError"))])).
Proof.
  apply (stopped_ingestion_keeps_earlier_files world_second_write_fails
           sample_vector_store []).
  vm_compute. reflexivity.
Defined.

Lemma event_chunks_ingest_events vector_store fs answers :
  length answers = length fs →
  omap event_chunks (ingest_events vector_store fs answers)
  = (λ answer, length answer.1) <$> answers.
Proof.
  revert answers. induction fs as [| file fs IH]; intros [| answer answers];
    simpl; try done.
  intros [= Hlen]. unfold ingest_events in IH. by rewrite IH.
Qed.

Lemma one_id_per_document_ingest_events vector_store fs answers :
  length answers = length fs →
  Forall one_id_per_document (ingest_events vector_store fs answers) →
  written_counts answers = (λ answer, length answer.1) <$> answers.
Proof.
  revert answers. induction fs as [| file fs IH]; intros [| answer answers];
    simpl; try done.
  intros [= Hlen]. unfold ingest_events. simpl.
  intros Hall. do 2 apply Forall_cons_1 in Hall as [_ Hall].
  apply Forall_cons_1 in Hall as [Hids Hall]. simpl in Hids.
  apply Forall_cons_1 in Hall as [_ Hall].
  unfold written_counts in *. simpl. rewrite Hids. f_equal. by apply IH.
Qed.

(** X10: if every [add_documents] call of a completed ingestion returned one
    id per document it was given, the total the cell reports is the number
    of chunks the three [load_and_split] calls returned. *)
Theorem reported_total_is_number_of_chunks
    (w : World) (vector_store : AzureSearch.t) h tr total :
  run w h (cell_ingest vector_store) = (tr, Ok total) →
  Forall one_id_per_document (drop (length h) tr) →
  total = sum_list (omap event_chunks (drop (length h) tr)).
Proof.
  intros (answers & Hlen & -> & ->)%run_cell_ingest.
  rewrite drop_app_length. intros [Hall _]%Forall_app.
  rewrite omap_app, event_chunks_ingest_events by done.
  simpl. rewrite app_nil_r.
  by rewrite (one_id_per_document_ingest_events vector_store files answers).
Qed.

(** An instance: three files of two chunks, each chunk written. *)
Lemma reported_total_is_number_of_chunks_witness :
  6 = sum_list (omap event_chunks
                  (drop (length (@nil Event))
                     (run world_ok [] (cell_ingest sample_vector_store)).1)).
Proof.
  apply (reported_total_is_number_of_chunks world_ok sample_vector_store []).
  - vm_compute. reflexivity.
  - vm_compute. repeat constructor.
Defined.

(** ** Searching comes after ingestion *)

Lemma all_calls_ingest_not_search vector_store :
  all_calls is_not_search_call (cell_ingest vector_store).
Proof.
  unfold cell_ingest, ingest_file.
  repeat all_calls_step; by intros [].
Qed.

(** A search event of a run does not lie in a part of the run in which no
    call is a search call. *)
Lemma search_event_after (a rest pre post : list Event) ev :
  Forall (event_call_satisfies is_not_search_call) a →
  a ++ rest = pre ++ ev :: post →
  event_call_satisfies is_search_call ev →
  ∃ between, pre = a ++ between ∧ rest = between ++ ev :: post.
Proof.
  revert pre. induction a as [| x a IH]; intros pre Ha Heq Hev; simpl in *.
  - by exists pre.
  - apply Forall_cons_1 in Ha as [Hx Ha].
    destruct pre as [| p pre]; simpl in Heq; injection Heq as -> Heq.
    + destruct ev. destruct (Hx Hev).
    + destruct (IH pre Ha Heq Hev) as (between & -> & ->). by exists between.
Qed.

(** X11: a search call is made only after ingestion has completed: in every
    run, whatever precedes a search call starts with the construction of
    the two clients, the events of the three files in full, and the line
    reporting the total. *)
Theorem search_only_after_completed_ingestion
    (w : World) (dotenv env : gmap string string) tr res pre ev post :
  run w [] (notebook dotenv env) = (tr, res) →
  tr = pre ++ ev :: post →
  event_call_satisfies is_search_call ev →
  ∃ cfg answers between,
    let embeddings := embeddings_args cfg in
    let vector_store := vector_store_args cfg embeddings in
    cell_load_env dotenv env = Ok cfg ∧
    length answers = 3 ∧
    pre = [ Ev (AzureOpenAIEmbeddings_init embeddings) (Ok ());
            Ev (AzureSearch_init vector_store) (Ok ()) ]
          ++ ingest_events vector_store files answers
          ++ Ev (print [Lit "Indexed ";
                        Fmt (VInt (Z.of_nat (sum_list (written_counts answers))));
                        Lit " chunks"]) (Ok ())
          :: between.
Proof.
  intros Hrun -> Hev.
  assert (Hnot : ∀ a : list Event,
            Forall (event_call_satisfies is_not_search_call) a →
            a ≠ pre ++ ev :: post).
  { intros a Ha Heq. rewrite <- (app_nil_r a) in Heq.
    destruct (search_event_after _ _ _ _ _ Ha Heq Hev) as (between & _ & Hnil).
    by destruct between. }
  destruct (cell_load_env dotenv env) as [cfg | e] eqn:Hcell.
  2:{ rewrite (run_notebook_config_error _ _ _ _ Hcell) in Hrun.
      injection Hrun as Htr _. by destruct pre. }
  rewrite (run_notebook_config_ok _ _ _ _ Hcell) in Hrun.
  unfold cells_after_config, cell_embeddings, cell_vector_store in Hrun.
  cbn -[cell_ingest cell_vector_search cell_hybrid_search
        cell_semantic_hybrid_search] in Hrun.
  destruct (w _ _ _) as [[] | ?].
  2:{ injection Hrun as Htr _. apply Hnot in Htr; [done |].
      repeat constructor. by intros []. }
  destruct (w _ _ _) as [[] | ?].
  2:{ injection Hrun as Htr _. apply Hnot in Htr; [done |].
      repeat constructor; by intros []. }
  rewrite run_bind in Hrun.
  destruct (run w _ (cell_ingest _)) as [h [total | ?]] eqn:Hingest.
  - pose proof Hingest as Hall.
    eapply run_all_calls in Hall as (new & Hh & Hnew);
      [| apply all_calls_ingest_not_search].
    apply run_cell_ingest in Hingest as (answers & Hlen & -> & ->).
    apply app_inv_head in Hh as <-.
    apply run_raise_last in Hrun as (rest & Htr & _).
    match type of Hnew with
    | Forall _ ?l =>
        assert (Forall (event_call_satisfies is_not_search_call)
                  ([ Ev (AzureOpenAIEmbeddings_init (embeddings_args cfg)) (Ok ());
                     Ev (AzureSearch_init
                           (vector_store_args cfg (embeddings_args cfg))) (Ok ()) ]
                   ++ l)) as Ha
          by (apply Forall_app; split; [repeat constructor; by intros [] | done])
    end.
    destruct (search_event_after _ rest pre post ev Ha)
      as (between & -> & _); [by rewrite Htr, <- !app_assoc | done |].
    exists cfg, answers, between. repeat split; [done |].
    by rewrite <- !app_assoc.
  - injection Hrun as Htr _.
    eapply run_all_calls in Hingest as (new & -> & Hnew);
      [| apply all_calls_ingest_not_search].
    apply Hnot in Htr; [done |].
    apply Forall_app. split; [repeat constructor; by intros [] | done].
Qed.

(** An instance: the first search call of a run that completes. *)
Lemma search_only_after_completed_ingestion_witness :
  let tr := (run world_ok [] (notebook ∅ (sample_environ "" "sk-123"))).1 in
  ∃ cfg answers between,
    let embeddings := embeddings_args cfg in
    let vector_store := vector_store_args cfg embeddings in
    cell_load_env ∅ (sample_environ "" "sk-123") = Ok cfg ∧
    length answers = 3 ∧
    take 15 tr
    = [ Ev (AzureOpenAIEmbeddings_init embeddings) (Ok ());
        Ev (AzureSearch_init vector_store) (Ok ()) ]
      ++ ingest_events vector_store files answers
      ++ Ev (print [Lit "Indexed ";
                    Fmt (VInt (Z.of_nat (sum_list (written_counts answers))));
                    Lit " chunks"]) (Ok ())
      :: between.
Proof.
  intros tr.
  apply (search_only_after_completed_ingestion world_ok ∅
           (sample_environ "" "sk-123") tr
           (run world_ok [] (notebook ∅ (sample_environ "" "sk-123"))).2
           (take 15 tr)
           (Ev (similarity_search sample_vector_store query_text 50 "similarity")
               (world_ok [] _
                  (similarity_search sample_vector_store query_text 50
                     "similarity")))
           (drop 16 tr)).
  - vm_compute. reflexivity.
  - vm_compute. reflexivity.
  - exact I.
Defined.

(** ** What the [similarity_search] cells print *)

Lemma run_print_docs_ok w docs h tr :
  run w h (for_in docs print_doc ()) = (tr, Ok ()) →
  ∃ sources,
    Forall2 has_source docs sources ∧
    tr = h ++ concat (zip_with printed_doc docs sources).
Proof.
  revert h. induction docs as [| doc docs IH]; intros h; cbn [for_in].
  - intros [= <-]. exists []. split; [constructor | by rewrite app_nil_r].
  - rewrite run_bind. unfold print_doc at 1, subscript. cbn.
    destruct (w _ _ _) as [[] | ?]; cbn; [| discriminate].
    destruct (metadata doc !! "source") as [source |] eqn:Hsource; cbn;
      [| discriminate].
    destruct (w _ _ _) as [[] | ?]; cbn; [| discriminate].
    destruct (w _ _ _) as [[] | ?]; cbn; [| discriminate].
    intros (sources & Hsources & ->)%IH.
    exists (source :: sources). split; [by constructor |].
    simpl. by rewrite <- !app_assoc.
Qed.

Lemma printed_docs_length docs sources :
  Forall2 has_source docs sources →
  length (concat (zip_with printed_doc docs sources)) = 3 * length docs.
Proof. induction 1; simpl; lia. Qed.

(** X12: when a [similarity_search] cell (vector or hybrid) completes, it has
    made the search call and then printed, for each document it kept, in
    the order kept, a line of eighty dashes, the document's ['source']
    metadata and its content, and nothing else: at most nine lines.  Every
    document kept has ['source'] metadata. *)
Theorem similarity_search_cell_prints_three_lines_per_document
    (w : World) (vector_store : AzureSearch.t) (search_type : string)
    h tr docs :
  run w h (cell_similarity_search vector_store search_type) = (tr, Ok docs) →
  ∃ results sources,
    docs = take 3 results ∧
    Forall2 has_source docs sources ∧
    tr = h ++ Ev (similarity_search vector_store query_text 50 search_type)
                 (Ok results)
           :: concat (zip_with printed_doc docs sources) ∧
    (length tr ≤ length h + 10)%nat.
Proof.
  unfold cell_similarity_search. rewrite run_bind, run_call.
  destruct (w h _ _) as [results | e]; [| discriminate].
  cbn zeta. rewrite run_bind.
  destruct (run w _ (for_in (take 3 results) print_doc ()))
    as [tr' [[] | e]] eqn:Hloop; [| discriminate].
  intros [= <- <-].
  apply run_print_docs_ok in Hloop as (sources & Hsources & ->).
  exists results, sources. rewrite <- app_assoc.
  repeat split; [done |].
  rewrite length_app. simpl.
  rewrite (printed_docs_length _ _ Hsources), length_take. lia.
Qed.

(** An instance: four results, three kept, nine lines. *)
Lemma similarity_search_cell_prints_three_lines_per_document_witness :
  ∃ results sources,
    [ sample_document "a" "Benefit_Options.pdf";
      sample_document "b" "Benefit_Options.pdf";
      sample_document "c" "Benefit_Options.pdf" ] = take 3 results ∧
    Forall2 has_source
      [ sample_document "a" "Benefit_Options.pdf";
        sample_document "b" "Benefit_Options.pdf";
        sample_document "c" "Benefit_Options.pdf" ] sources ∧
    (run world_ok [] (cell_similarity_search sample_vector_store "hybrid")).1
    = [] ++ Ev (similarity_search sample_vector_store query_text 50 "hybrid")
               (Ok results)
         :: concat (zip_with printed_doc
                      [ sample_document "a" "Benefit_Options.pdf";
                        sample_document "b" "Benefit_Options.pdf";
                        sample_document "c" "Benefit_Options.pdf" ] sources) ∧
    (length (run world_ok [] (cell_similarity_search sample_vector_store "hybrid")).1
     ≤ length (@nil Event) + 10)%nat.
Proof.
  apply (similarity_search_cell_prints_three_lines_per_document world_ok
           sample_vector_store "hybrid" []).
  vm_compute. reflexivity.
Defined.

Lemma run_print_doc_complete w doc source h :
  print_returns w → has_source doc source →
  run w h (print_doc doc ()) = (h ++ printed_doc doc source, Ok ()).
Proof.
  intros Hprint Hsource. unfold print_doc, subscript, printed_doc. cbn.
  rewrite Hprint. cbn. rewrite Hsource. cbn.
  rewrite Hprint. cbn. rewrite Hprint. by rewrite <- !app_assoc.
Qed.

Lemma run_print_docs_complete w docs sources h :
  print_returns w → Forall2 has_source docs sources →
  run w h (for_in docs print_doc ())
  = (h ++ concat (zip_with printed_doc docs sources), Ok ()).
Proof.
  intros Hprint Hsources. revert h.
  induction Hsources as [| doc source docs sources Hsource _ IH]; intros h;
    cbn [for_in].
  - simpl. by rewrite app_nil_r.
  - rewrite run_bind, (run_print_doc_complete _ _ source) by done.
    rewrite IH. simpl. by rewrite <- !app_assoc.
Qed.

Lemma run_print_docs_missing_source w pre doc post sources h :
  print_returns w → Forall2 has_source pre sources →
  metadata doc !! "source" = None →
  run w h (for_in (pre ++ doc :: post) print_doc ())
  = (h ++ concat (zip_with printed_doc pre sources)
       ++ [Ev (print [Lit (str_mul "-" 80)]) (Ok ())],
     Err (KeyError "source")).
Proof.
  intros Hprint Hsources Hnone. revert h.
  induction Hsources as [| doc' source docs sources Hsource _ IH]; intros h;
    simpl app; cbn [for_in]; rewrite run_bind.
  - unfold print_doc at 1, subscript. cbn. rewrite Hprint. cbn.
    by rewrite Hnone.
  - rewrite (run_print_doc_complete _ _ source) by done.
    rewrite IH. simpl. by rewrite <- !app_assoc.
Qed.

(** X13: if printing does not raise and each document among the first three
    results has ['source'] metadata, a [similarity_search] cell completes
    and keeps these documents; a result list of fewer than three documents,
    or of none, is printed as it is. *)
Theorem similarity_search_cell_completes
    (w : World) (vector_store : AzureSearch.t) (search_type : string)
    h results sources :
  print_returns w →
  w h _ (similarity_search vector_store query_text 50 search_type) = Ok results →
  Forall2 has_source (take 3 results) sources →
  run w h (cell_similarity_search vector_store search_type)
  = (h ++ Ev (similarity_search vector_store query_text 50 search_type)
             (Ok results)
       :: concat (zip_with printed_doc (take 3 results) sources),
     Ok (take 3 results)).
Proof.
  intros Hprint Hresults Hsources.
  unfold cell_similarity_search. rewrite run_bind, run_call, Hresults.
  cbn zeta. rewrite run_bind.
  rewrite (run_print_docs_complete _ _ sources) by done.
  simpl. by rewrite <- app_assoc.
Qed.

(** An instance: the service finds nothing; the cell prints nothing and
    keeps the empty list. *)
Lemma similarity_search_cell_completes_witness :
  let w := world_finding [] in
  run w [] (cell_similarity_search sample_vector_store "similarity")
  = ([] ++ Ev (similarity_search sample_vector_store query_text 50 "similarity")
              (Ok [])
        :: concat (zip_with printed_doc (take 3 []) []),
     Ok (take 3 [])).
Proof.
  intros w.
  apply (similarity_search_cell_completes w sample_vector_store "similarity"
           [] [] []).
  - intros h line. reflexivity.
  - reflexivity.
  - constructor.
Defined.

(** X14: if printing does not raise and one of the first three results has
    no ['source'] metadata, a [similarity_search] cell stops with
    [KeyError('source')]: the documents before that one have been printed
    in full, the line of dashes of that one has been printed, and nothing
    of the documents after it. *)
Theorem similarity_search_cell_stops_at_missing_source
    (w : World) (vector_store : AzureSearch.t) (search_type : string)
    h results pre doc post sources :
  print_returns w →
  w h _ (similarity_search vector_store query_text 50 search_type) = Ok results →
  take 3 results = pre ++ doc :: post →
  Forall2 has_source pre sources →
  metadata doc !! "source" = None →
  run w h (cell_similarity_search vector_store search_type)
  = (h ++ Ev (similarity_search vector_store query_text 50 search_type)
             (Ok results)
       :: concat (zip_with printed_doc pre sources)
       ++ [Ev (print [Lit (str_mul "-" 80)]) (Ok ())],
     Err (KeyError "source")).
Proof.
  intros Hprint Hresults Htake Hsources Hnone.
  unfold cell_similarity_search. rewrite run_bind, run_call, Hresults.
  cbn zeta. rewrite run_bind, Htake.
  rewrite (run_print_docs_missing_source _ _ _ _ sources) by done.
  simpl. by rewrite <- app_assoc.
Qed.

(** An instance: the second of two results has no metadata. *)
Lemma similarity_search_cell_stops_at_missing_source_witness :
  let first := sample_document "a" "Benefit_Options.pdf" in
  let second := {| page_content := "b"; metadata := ∅ |} in
  let w := world_finding [first; second] in
  run w [] (cell_similarity_search sample_vector_store "similarity")
  = ([] ++ Ev (similarity_search sample_vector_store query_text 50 "similarity")
              (Ok [first; second])
        :: concat (zip_with printed_doc [first] [VStr "Benefit_Options.pdf"])
        ++ [Ev (print [Lit (str_mul "-" 80)]) (Ok ())],
     Err (KeyError "source")).
Proof.
  intros first second w.
  apply (similarity_search_cell_stops_at_missing_source w sample_vector_store
           "similarity" [] [first; second] [first] second []
           [VStr "Benefit_Options.pdf"]).
  - intros h line. reflexivity.
  - reflexivity.
  - reflexivity.
  - repeat constructor.
  - reflexivity.
Defined.

(** ** What the semantic cell prints *)

(** X15: the code that prints a semantic answer or a caption either prints
    one line, showing the ['highlights'] entry of the dictionary when that
    entry is there and true and its ['text'] entry otherwise, or prints
    nothing and raises: [AttributeError] when the value is not a
    dictionary, [KeyError('text')] when there are no true highlights and no
    text.  It never raises [KeyError('highlights')] itself. *)
Theorem highlights_are_shown_before_text
    (w : World) (label : string) (v : PyVal) h tr res :
  run w h (print_highlights_or_text label v) = (tr, res) →
  (∃ d x, v = VDict d ∧ highlights_or_text d x ∧
          tr = h ++ [Ev (print [Lit label; Fmt x]) res]) ∨
  (tr = h ∧ res = Err (AttributeError "get") ∧ ∀ d, v ≠ VDict d) ∨
  (tr = h ∧ res = Err (KeyError "text") ∧
   ∃ d, v = VDict d ∧
        truthy (default VNone (d !! "highlights")) = false ∧
        d !! "text" = None).
Proof.
  unfold print_highlights_or_text, highlights_or_text.
  destruct v as [| | | | | | d];
    try (intros [= <- <-]; right; left; by repeat split).
  rewrite run_bind, run_lift. simpl dict_get. cbn iota.
  destruct (truthy (default VNone (d !! "highlights"))) eqn:Htruthy.
  - destruct (d !! "highlights") as [x |] eqn:Hx; [| discriminate].
    rewrite run_bind, run_lift. simpl. rewrite Hx. simpl.
    intros Hrun. left. exists d, x.
    destruct (w _ _ _); injection Hrun as <- <-; eauto.
  - rewrite run_bind, run_lift. simpl.
    destruct (d !! "text") as [x |] eqn:Hx; simpl.
    + intros Hrun. left. exists d, x.
      destruct (w _ _ _); injection Hrun as <- <-; eauto 6.
    + intros [= <- <-]. right; right. eauto 6.
Qed.

(** An instance: a caption with text and empty highlights. *)
Lemma highlights_are_shown_before_text_witness :
  let r := run world_ok [] (print_highlights_or_text "Caption: "
                              (sample_caption "some text")) in
  (∃ d x, sample_caption "some text" = VDict d ∧ highlights_or_text d x ∧
          r.1 = [] ++ [Ev (print [Lit "Caption: "; Fmt x]) r.2]) ∨
  (r.1 = [] ∧ r.2 = Err (AttributeError "get") ∧
   ∀ d, sample_caption "some text" ≠ VDict d) ∨
  (r.1 = [] ∧ r.2 = Err (KeyError "text") ∧
   ∃ d, sample_caption "some text" = VDict d ∧
        truthy (default VNone (d !! "highlights")) = false ∧
        d !! "text" = None).
Proof.
  intros r.
  apply (highlights_are_shown_before_text world_ok "Caption: "
           (sample_caption "some text") [] r.1 r.2).
  vm_compute. reflexivity.
Defined.

Lemma run_print_highlights_or_text_ok w label v h tr :
  run w h (print_highlights_or_text label v) = (tr, Ok ()) →
  ∃ d x, v = VDict d ∧ highlights_or_text d x ∧
         tr = h ++ [Ev (print [Lit label; Fmt x]) (Ok ())].
Proof.
  unfold print_highlights_or_text, highlights_or_text.
  destruct v as [| | | | | | d]; try discriminate.
  rewrite run_bind, run_lift. simpl dict_get. cbn iota.
  destruct (truthy (default VNone (d !! "highlights"))) eqn:Htruthy.
  - destruct (d !! "highlights") as [x |] eqn:Hx; [| discriminate].
    rewrite run_bind, run_lift. simpl. rewrite Hx. simpl.
    destruct (w _ _ _) as [[] | ?]; [| discriminate].
    intros [= <-]. exists d, x. eauto.
  - rewrite run_bind, run_lift. simpl.
    destruct (d !! "text") as [x |] eqn:Hx; simpl; [| discriminate].
    destruct (w _ _ _) as [[] | ?]; [| discriminate].
    intros [= <-]. exists d, x. eauto 6.
Qed.

Lemma run_print_doc_and_score_ok w ds h tr :
  run w h (print_doc_and_score ds ()) = (tr, Ok ()) →
  ∃ answer_caption,
    shows ds answer_caption ∧ tr = h ++ printed_scored_doc ds answer_caption.
Proof.
  destruct ds as [doc score]. unfold print_doc_and_score, shows, subscript.
  rewrite run_bind, run_call.
  destruct (w _ _ _) as [[] | ?]; [| discriminate].
  rewrite run_bind, run_lift.
  destruct (metadata doc !! "answers") as [answers |] eqn:Hanswers;
    [| discriminate].
  rewrite run_bind.
  destruct (run w _ (if truthy answers then _ else _))
    as [h1 [[] | ?]] eqn:Hif; [| discriminate].
  rewrite run_bind, run_call.
  destruct (w _ _ _) as [[] | ?]; [| discriminate].
  rewrite run_bind, run_lift.
  destruct (metadata doc !! "captions") as [captions |] eqn:Hcaptions;
    [| discriminate].
  rewrite run_bind, run_call.
  destruct (w _ _ _) as [[] | ?]; [| discriminate].
  intros Hcaption.
  assert (∃ answer, shown answers answer ∧
            h1 = (h ++ [Ev (print [Lit (str_mul "-" 80)]) (Ok ())])
                 ++ match answer with
                    | Some x =>
                        [ Ev (print [Lit "Semantic Answer: "; Fmt x]) (Ok ());
                          Ev (print [Lit "Semantic Answer Score: ";
                                     Fmt (VFloat score)]) (Ok ()) ]
                    | None => []
                    end) as (answer & Hanswer & ->).
  { destruct (truthy answers) eqn:Htruthy.
    - rewrite run_bind in Hif.
      destruct (run w _ (print_highlights_or_text _ _))
        as [h2 [[] | ?]] eqn:Hshow; [| discriminate].
      apply run_print_highlights_or_text_ok in Hshow as (d & x & -> & Hx & ->).
      rewrite run_call in Hif.
      destruct (w _ _ _) as [[] | ?]; [| discriminate].
      injection Hif as <-. exists (Some x).
      split; [simpl; by eauto | by rewrite <- !app_assoc].
    - injection Hif as <-. exists None.
      split; [done | by rewrite app_nil_r]. }
  assert (∃ caption, shown captions caption ∧
            tr = (((h ++ [Ev (print [Lit (str_mul "-" 80)]) (Ok ())])
                   ++ match answer with
                      | Some x =>
                          [ Ev (print [Lit "Semantic Answer: "; Fmt x]) (Ok ());
                            Ev (print [Lit "Semantic Answer Score: ";
                                       Fmt (VFloat score)]) (Ok ()) ]
                      | None => []
                      end)
                  ++ [Ev (print [Lit "Content:"; Lit " ";
                                 Fmt (VStr (page_content doc))]) (Ok ())])
                 ++ [Ev (print [Lit "Score: "; Fmt (VFloat score)]) (Ok ())]
                 ++ [match caption with
                     | Some y => Ev (print [Lit "Caption: "; Fmt y]) (Ok ())
                     | None => Ev (print [Lit "Caption not available"]) (Ok ())
                     end]) as (caption & Hcaption' & ->).
  { destruct (truthy captions) eqn:Htruthy.
    - apply run_print_highlights_or_text_ok in Hcaption
        as (d & y & -> & Hy & ->).
      exists (Some y). split; [simpl; by eauto | by rewrite <- !app_assoc].
    - rewrite run_call in Hcaption.
      destruct (w _ _ _) as [[] | ?]; [| discriminate].
      injection Hcaption as <-. exists None. split; [done |].
      by rewrite <- !app_assoc. }
  exists (answer, caption). split; [by eauto 6 |].
  simpl. by rewrite <- !app_assoc.
Qed.

Lemma run_print_docs_and_scores_ok w docs_and_scores h tr :
  run w h (for_in docs_and_scores print_doc_and_score ()) = (tr, Ok ()) →
  ∃ l, Forall2 shows docs_and_scores l ∧
       tr = h ++ concat (zip_with printed_scored_doc docs_and_scores l).
Proof.
  revert h. induction docs_and_scores as [| ds dss IH]; intros h; cbn [for_in].
  - intros [= <-]. exists []. split; [constructor | by rewrite app_nil_r].
  - rewrite run_bind.
    destruct (run w h (print_doc_and_score ds ())) as [h1 [[] | ?]] eqn:Hds;
      [| discriminate].
    apply run_print_doc_and_score_ok in Hds as (ac & Hac & ->).
    intros (l & Hl & ->)%IH.
    exists (ac :: l). split; [by constructor |].
    simpl. by rewrite <- !app_assoc.
Qed.

(** X16: when the semantic cell completes, it has made the search call and
    then printed, for each of the at most three pairs it kept, in the order
    kept: a line of eighty dashes; if the document's ['answers'] metadata is
    true, the answer (highlights before text) and, as its score, the
    document's score; the content; the score; and the caption (highlights
    before text), or ["Caption not available"] if the ['captions'] metadata
    is false.  Every document kept has ['answers'] and ['captions']
    metadata. *)
Theorem semantic_cell_prints_answers_content_score_caption
    (w : World) (vector_store : AzureSearch.t) h tr docs_and_scores :
  run w h (cell_semantic_hybrid_search vector_store) = (tr, Ok docs_and_scores) →
  ∃ results l,
    docs_and_scores = take 3 results ∧
    Forall2 shows docs_and_scores l ∧
    tr = h ++ Ev (semantic_hybrid_search_with_score vector_store query_text 50)
                 (Ok results)
           :: concat (zip_with printed_scored_doc docs_and_scores l).
Proof.
  unfold cell_semantic_hybrid_search. rewrite run_bind, run_call.
  destruct (w h _ _) as [results | e]; [| discriminate].
  cbn zeta. rewrite run_bind.
  destruct (run w _ (for_in (take 3 results) print_doc_and_score ()))
    as [tr' [[] | e]] eqn:Hloop; [| discriminate].
  intros [= <- <-].
  apply run_print_docs_and_scores_ok in Hloop as (l & Hl & ->).
  exists results, l. by rewrite <- app_assoc.
Qed.

(** An instance: four results without answers and with captions; three are
    kept and printed with four lines each. *)
Lemma semantic_cell_prints_answers_content_score_caption_witness :
  let r := run world_ok [] (cell_semantic_hybrid_search sample_vector_store) in
  ∃ results l,
    [ sample_scored_document "a" (S754_finite false 4 0);
      sample_scored_document "b" (S754_finite false 3 0);
      sample_scored_document "c" (S754_finite false 2 0) ] = take 3 results ∧
    Forall2 shows
      [ sample_scored_document "a" (S754_finite false 4 0);
        sample_scored_document "b" (S754_finite false 3 0);
        sample_scored_document "c" (S754_finite false 2 0) ] l ∧
    r.1 = [] ++ Ev (semantic_hybrid_search_with_score sample_vector_store
                      query_text 50) (Ok results)
             :: concat (zip_with printed_scored_doc
                          [ sample_scored_document "a" (S754_finite false 4 0);
                            sample_scored_document "b" (S754_finite false 3 0);
                            sample_scored_document "c" (S754_finite false 2 0) ]
                          l).
Proof.
  intros r.
  apply (semantic_cell_prints_answers_content_score_caption world_ok
           sample_vector_store [] r.1).
  vm_compute. reflexivity.
Defined.

Lemma run_ret {A} (w : World) (a : A) h : run w h (mret a) = (h, Ok a).
Proof. reflexivity. Qed.

(** X17: if printing does not raise and the first result of the semantic
    search has no ['answers'] metadata, the semantic cell stops with
    [KeyError('answers')] after the line of dashes; if its ['answers']
    metadata is false and it has no ['captions'] metadata, the cell stops
    with [KeyError('captions')] after the content line, before any score is
    printed. *)
Theorem semantic_cell_stops_at_missing_metadata
    (w : World) (vector_store : AzureSearch.t) h doc score rest :
  print_returns w →
  w h _ (semantic_hybrid_search_with_score vector_store query_text 50)
    = Ok ((doc, score) :: rest) →
  let searched :=
    Ev (semantic_hybrid_search_with_score vector_store query_text 50)
       (Ok ((doc, score) :: rest)) in
  let dashes := Ev (print [Lit (str_mul "-" 80)]) (Ok ()) in
  (metadata doc !! "answers" = None →
   run w h (cell_semantic_hybrid_search vector_store)
   = (h ++ [searched; dashes], Err (KeyError "answers"))) ∧
  (∀ answers,
     metadata doc !! "answers" = Some answers → truthy answers = false →
     metadata doc !! "captions" = None →
     run w h (cell_semantic_hybrid_search vector_store)
     = (h ++ [ searched; dashes;
               Ev (print [Lit "Content:"; Lit " ";
                          Fmt (VStr (page_content doc))]) (Ok ()) ],
        Err (KeyError "captions"))).
Proof.
  intros Hprint Hresults searched dashes.
  assert (Hcell : run w h (cell_semantic_hybrid_search vector_store)
                  = match run w (h ++ [searched])
                            (print_doc_and_score (doc, score) ()) with
                    | (h', Ok _) =>
                        match run w h' (for_in (take 2 rest)
                                          print_doc_and_score ()) with
                        | (h'', Ok _) => (h'', Ok ((doc, score) :: take 2 rest))
                        | (h'', Err e) => (h'', Err e)
                        end
                    | (h', Err e) => (h', Err e)
                    end).
  { unfold cell_semantic_hybrid_search. rewrite run_bind, run_call, Hresults.
    cbn zeta. rewrite run_bind. simpl take. cbn [for_in]. rewrite run_bind.
    destruct (run w _ (print_doc_and_score _ _)) as [h1 [[] | ?]]; [| done].
    by destruct (run w h1 _) as [h2 [[] | ?]]. }
  rewrite Hcell. unfold print_doc_and_score, subscript.
  rewrite run_bind, run_call, Hprint, run_bind, run_lift.
  split.
  - intros ->. by rewrite <- app_assoc.
  - intros answers -> -> Hcaptions.
    rewrite run_bind, run_ret.
    rewrite run_bind, run_call, Hprint, run_bind, run_lift, Hcaptions.
    by rewrite <- !app_assoc.
Qed.

(** An instance: the only result has no metadata at all. *)
Lemma semantic_cell_stops_at_missing_metadata_witness :
  let doc := {| page_content := "a"; metadata := ∅ |} in
  let score := S754_finite false 4 0 in
  let w := world_finding_scored [(doc, score)] in
  run w [] (cell_semantic_hybrid_search sample_vector_store)
  = ([] ++ [ Ev (semantic_hybrid_search_with_score sample_vector_store
                   query_text 50) (Ok [(doc, score)]);
             Ev (print [Lit (str_mul "-" 80)]) (Ok ()) ],
     Err (KeyError "answers")).
Proof.
  intros doc score w.
  apply (semantic_cell_stops_at_missing_metadata w sample_vector_store []
           doc score []).
  - intros h line. reflexivity.
  - reflexivity.
  - reflexivity.
Defined.
